(** * Okta identity-provider resources: builders and lifecycle handlers

    A shallow embedding of [okta/idp.go] and [okta/resource_social_idp.go].
    Go pointers are [option]s ([None] is [nil]), a nil dereference or a failed
    type assertion is the outcome [Panic], the resource schema is a finite
    map from field names to descriptors, and the remote service is an oracle
    answering each SDK call from the history of the calls made so far. *)

From Stdlib Require Import ZArith String List Ascii DecimalString.
From stdpp Require Import base option gmap strings.
Import ListNotations.

Local Open Scope Z_scope.
Local Open Scope string_scope.

(** ** Remote domain objects

    The struct declarations live outside the two files; the fields below are
    the ones the composite literals and selectors of the two files name, and a
    field built with [&T{...}] or compared with [nil] is a pointer. *)

Record IDPAction := { IDPAction_Action : string }.

Record IDPConditions := {
  Deprovisioned : option IDPAction;
  Suspended : option IDPAction
}.

Record IDPProvisioning := {
  Provisioning_Action : string;
  ProfileMaster : bool;
  Conditions : option IDPConditions;
  Provisioning_Groups : option IDPAction
}.

Record Included := { Include : list string }.

Record Filter := { Filter_Groups : option Included }.

Record AccountLink := {
  AccountLink_Action : string;
  AccountLink_Filter : option Filter
}.

Record ApplicationCredentialsUsernameTemplate := { Template : string }.

Record OIDCSubject := {
  MatchType : string;
  UserNameTemplate : option ApplicationCredentialsUsernameTemplate
}.

Record OIDCPolicy := {
  Policy_AccountLink : option AccountLink;
  MaxClockSkew : Z;
  Provisioning : option IDPProvisioning;
  Subject : option OIDCSubject
}.

Record OIDCClient := { ClientID : string; ClientSecret : string }.

Record OIDCCredentials := { Client_ : option OIDCClient }.

Record OIDCProtocol := {
  Scopes : list string;
  Protocol_Type : string;
  Credentials : option OIDCCredentials
}.

Record OIDCIdentityProvider := {
  ID : string;
  Name : string;
  Type_ : string;
  Status : string;
  IssuerMode : string;
  Policy : option OIDCPolicy;
  Protocol : option OIDCProtocol
}.

Record Signature := { Algorithm : string; Scope : string }.

Record IDPSignature := { Signature_ : option Signature }.

Record Algorithms := {
  Request : option IDPSignature;
  Response_ : option IDPSignature
}.

(** The zero value [&OIDCIdentityProvider{}]. *)
Definition emptyOIDCIdentityProvider : OIDCIdentityProvider :=
  {| ID := ""; Name := ""; Type_ := ""; Status := ""; IssuerMode := "";
     Policy := None; Protocol := None |}.

(** ** Outcomes: a Go call either returns or panics *)

Inductive outcome (A : Type) : Type :=
| Panic : outcome A
| Ret : A -> outcome A.
Arguments Panic {A}.
Arguments Ret {A} _.

Definition obind {A B : Type} (o : outcome A) (k : A -> outcome B) : outcome B :=
  match o with
  | Panic => Panic
  | Ret a => k a
  end.

(** [p.f] on a pointer [p]: panics on nil. *)
Definition deref {A : Type} (p : option A) : outcome A :=
  match p with
  | None => Panic
  | Some a => Ret a
  end.

(** ** Schema descriptors and resource data *)

Inductive ValueType := TypeBool | TypeInt | TypeString | TypeSet.

(** What an [interface{}] handed to or returned by the resource data can hold
    in these two files. *)
Inductive Value :=
| VNil
| VBool (b : bool)
| VInt (n : Z)
| VString (s : string)
| VSet (l : list string)
| VAction (a : option IDPAction)
| VFilter (f : option Filter).

Record Schema := {
  SchemaType : ValueType;
  Required : bool;
  Optional : bool;
  Computed : bool;
  Default : option Value;
  ValidateFunc : option (list string)
}.

Definition actionSchema : Schema :=
  {| SchemaType := TypeString; Required := false; Optional := true;
     Computed := false; Default := Some (VString "NONE"); ValidateFunc := None |}.

Definition algorithmSchema : Schema :=
  {| SchemaType := TypeString; Required := false; Optional := true;
     Computed := false; Default := Some (VString "SHA-256");
     ValidateFunc := Some ["SHA-256"] |}.

Definition optBindingSchema : Schema :=
  {| SchemaType := TypeString; Required := false; Optional := false;
     Computed := true; Default := None; ValidateFunc := None |}.

Definition optUrlSchema : Schema :=
  {| SchemaType := TypeString; Required := false; Optional := false;
     Computed := true; Default := None; ValidateFunc := None |}.

(** Modelled from the spec: [statusSchema] is declared outside the two files;
    the status is a string field holding the activation state, which the
    handlers read with [d.Get("status").(string)]. *)
Definition statusSchema : Schema :=
  {| SchemaType := TypeString; Required := false; Optional := true;
     Computed := false; Default := Some (VString "ACTIVE");
     ValidateFunc := Some ["ACTIVE"; "INACTIVE"] |}.

Definition optionalString (def : option Value) (allowed : option (list string)) : Schema :=
  {| SchemaType := TypeString; Required := false; Optional := true;
     Computed := false; Default := def; ValidateFunc := allowed |}.

Definition baseIdpSchema : gmap string Schema :=
  list_to_map [
    ("name", {| SchemaType := TypeString; Required := true; Optional := false;
                Computed := false; Default := None; ValidateFunc := None |});
    ("status", statusSchema);
    ("account_link_action", optionalString (Some (VString "AUTO")) None);
    ("account_link_group_include",
       {| SchemaType := TypeSet; Required := false; Optional := true;
          Computed := false; Default := None; ValidateFunc := None |});
    ("provisioning_action", optionalString (Some (VString "AUTO")) (Some ["AUTO"; ""]));
    ("deprovisioned_action", actionSchema);
    ("suspended_action", actionSchema);
    ("groups_action", actionSchema);
    ("username_template", optionalString (Some (VString "idpuser.email")) None);
    ("subject_match_type", optionalString (Some (VString "USERNAME")) None);
    ("profile_master",
       {| SchemaType := TypeBool; Required := false; Optional := true;
          Computed := false; Default := None; ValidateFunc := None |});
    ("request_signature_algorithm", algorithmSchema);
    ("request_signature_scope", optionalString None (Some ["REQUEST"; ""]));
    ("response_signature_algorithm", algorithmSchema);
    ("response_signature_scope", optionalString None (Some ["RESPONSE"; "ANY"; ""]))
  ].

(** Modelled from the spec: [buildSchema] is declared outside the two files;
    it lays the fields of a resource kind over the shared base fields. *)
Definition buildSchema (base idpSchema : gmap string Schema) : gmap string Schema :=
  idpSchema ∪ base.

Definition buildIdpSchema (idpSchema : gmap string Schema) : gmap string Schema :=
  buildSchema baseIdpSchema idpSchema.

(** The [Schema] field of [resourceSocialIdp]. *)
Definition resourceSocialIdpSchema : gmap string Schema :=
  buildIdpSchema (list_to_map [
    ("authorization_url", optUrlSchema);
    ("authorization_binding", optBindingSchema);
    ("token_url", optUrlSchema);
    ("token_binding", optBindingSchema);
    ("type", {| SchemaType := TypeString; Required := true; Optional := false;
                Computed := false; Default := None;
                ValidateFunc := Some ["OIDC"; "FACEBOOK"; "LINKEDIN"; "MICROSOFT"; "GOOGLE"] |});
    ("scopes", {| SchemaType := TypeSet; Required := true; Optional := false;
                  Computed := false; Default := None; ValidateFunc := None |});
    ("protocol_type", optionalString (Some (VString "OIDC")) (Some ["OIDC"; "OAUTH2"]));
    ("client_id", optionalString None None);
    ("client_secret", optionalString None None);
    ("max_clock_skew",
       {| SchemaType := TypeInt; Required := false; Optional := true;
          Computed := false; Default := None; ValidateFunc := None |})
  ]).

Definition zeroValue (t : ValueType) : Value :=
  match t with
  | TypeBool => VBool false
  | TypeInt => VInt 0
  | TypeString => VString ""
  | TypeSet => VSet []
  end.

Definition hasType (v : Value) (t : ValueType) : bool :=
  match v, t with
  | VBool _, TypeBool => true
  | VInt _, TypeInt => true
  | VString _, TypeString => true
  | VSet _, TypeSet => true
  | _, _ => false
  end.

(** [*schema.ResourceData] of the social identity-provider resource: the
    resource id, the stored field values, the partial-state flag, and whether
    the data was built from a plan (create, update), where a field that is
    not set reads as its schema default, or from the state alone (read,
    delete, exists), where it reads as the zero value of its type. *)
Record ResourceData := {
  rd_id : string;
  rd_fields : gmap string Value;
  rd_partial : bool;
  rd_planned : bool
}.

Definition Id (d : ResourceData) : string := rd_id d.

Definition SetId (d : ResourceData) (v : string) : ResourceData :=
  {| rd_id := v; rd_fields := rd_fields d; rd_partial := rd_partial d;
     rd_planned := rd_planned d |}.

Definition SetPartial (d : ResourceData) (v : bool) : ResourceData :=
  {| rd_id := rd_id d; rd_fields := rd_fields d; rd_partial := v;
     rd_planned := rd_planned d |}.

(** The resource data with [v] stored under the field [key]. *)
Definition stored (d : ResourceData) (key : string) (v : Value) : ResourceData :=
  {| rd_id := rd_id d; rd_fields := <[key := v]> (rd_fields d);
     rd_partial := rd_partial d; rd_planned := rd_planned d |}.

(** [strings.Split(key, ".")]. *)
Fixpoint splitDot (s : string) : list string :=
  match s with
  | EmptyString => [EmptyString]
  | String c rest =>
      match splitDot rest with
      | seg :: segs =>
          if Ascii.eqb c "."%char then EmptyString :: seg :: segs
          else String c seg :: segs
      | [] => [String c EmptyString]
      end
  end.

(** The code under which the framework files a string in a set, which is
    outside the source: the decimal CRC-32 of the element followed by a
    semicolon. No statement below depends on what the codes are. *)
Definition crc32_step (c : Z) : Z :=
  if Z.testbit c 0 then Z.lxor (Z.shiftr c 1) 3988292384 else Z.shiftr c 1.

Definition crc32_byte (crc : Z) (b : ascii) : Z :=
  let c := Z.lxor crc (Z.of_nat (nat_of_ascii b)) in
  crc32_step (crc32_step (crc32_step (crc32_step
    (crc32_step (crc32_step (crc32_step (crc32_step c))))))).

Definition ChecksumIEEE (s : string) : Z :=
  Z.lxor (fold_left crc32_byte (list_ascii_of_string s) 4294967295) 4294967295.

Definition setCode (element : string) : string :=
  NilZero.string_of_int (Z.to_int (ChecksumIEEE (String.append element ";"))).

(** The value of the field [key], a plain field name: the host framework
    reads through the schema, so a declared field always yields a value of
    its declared type (the stored one, else the default if the data carries a
    plan, else the zero value) and an undeclared name yields nil. *)
Definition GetField (d : ResourceData) (key : string) : Value :=
  match resourceSocialIdpSchema !! key with
  | None => VNil
  | Some sch =>
      let fallback :=
        match Default sch with
        | Some v =>
            if rd_planned d && hasType v (SchemaType sch)
            then v else zeroValue (SchemaType sch)
        | None => zeroValue (SchemaType sch)
        end in
      match rd_fields d !! key with
      | Some v => if hasType v (SchemaType sch) then v else fallback
      | None => fallback
      end
  end.

(** [d.Get(key)]. The key is split at its dots: a plain name is a field; one
    more part below a set field is the count of the set (part "#") or the
    element filed under that code (the empty string if there is none);
    every other address resolves to no schema and yields nil. *)
Definition Get (d : ResourceData) (key : string) : Value :=
  match splitDot key with
  | [field] => GetField d field
  | [field; part] =>
      match GetField d field with
      | VSet l =>
          if String.eqb part "#" then VInt (Z.of_nat (length l))
          else VString (List.hd EmptyString
                          (List.filter (fun e => String.eqb (setCode e) part) l))
      | _ => VNil
      end
  | _ => VNil
  end.

(** [d.Set(key, value)] on the resource data of a resource kind whose schema
    is [schema]. An address the schema does not resolve is refused with an
    error. A nil value, or a nil pointer, stores the zero value of the field.
    A set field takes a set and panics on anything else (the framework
    asserts the value to a set); a scalar field stores a value of its type
    and refuses any other with an error. The boolean is [err == nil]. *)
Definition SetIn (schema : gmap string Schema) (d : ResourceData) (key : string)
    (v : Value) : outcome (ResourceData * bool) :=
  match schema !! key with
  | None => Ret (d, false)
  | Some sch =>
      match v with
      | VNil | VAction None | VFilter None =>
          Ret (stored d key (zeroValue (SchemaType sch)), true)
      | _ =>
          match SchemaType sch with
          | TypeSet =>
              match v with
              | VSet _ => Ret (stored d key v, true)
              | _ => Panic
              end
          | t => if hasType v t then Ret (stored d key v, true) else Ret (d, false)
          end
      end
  end.

(** [d.Set] on the resource data of the social identity provider. *)
Definition Set_ (d : ResourceData) (key : string) (v : Value)
  : outcome (ResourceData * bool) :=
  SetIn resourceSocialIdpSchema d key v.

(** Type assertions [v.(string)], [v.(int)], [v.(bool)]. *)
Definition asString (v : Value) : outcome string :=
  match v with VString s => Ret s | _ => Panic end.

Definition asInt (v : Value) : outcome Z :=
  match v with VInt n => Ret n | _ => Panic end.

Definition asBool (v : Value) : outcome bool :=
  match v with VBool b => Ret b | _ => Panic end.

(** Modelled from the spec: [convertInterfaceToStringSet] is declared outside
    the two files; it turns the set held by a set-typed field into the slice
    of its strings. *)
Definition convertInterfaceToStringSet (v : Value) : outcome (list string) :=
  match v with VSet l => Ret l | _ => Panic end.

(** Modelled from the spec: [convertStringSetToInterface] is declared outside
    the two files; it is the converse conversion, used when flattening. *)
Definition convertStringSetToInterface (l : list string) : Value := VSet l.

(** [fmt.Sprintf("%s" ++ suffix, key)]. *)
Definition Sprintf_s (key suffix : string) : string := String.append key suffix.

Declare Scope go_scope.
Delimit Scope go_scope with go.
Notation "x <- c ;; k" := (obind c (fun x => k))
  (at level 100, c at next level, right associativity) : go_scope.
Local Open Scope go_scope.

(** ** Builders ([idp.go], [resource_social_idp.go]) *)

Definition NewIdpProvisioning (d : ResourceData) : outcome IDPProvisioning :=
  action <- asString (Get d "provisioning_action") ;;
  deprovisioned <- asString (Get d "deprovisioned_action") ;;
  suspended <- asString (Get d "suspended_action") ;;
  groups <- asString (Get d "groups_action") ;;
  Ret {| Provisioning_Action := action;
         ProfileMaster := false;
         Conditions := Some {|
           Deprovisioned := Some {| IDPAction_Action := deprovisioned |};
           Suspended := Some {| IDPAction_Action := suspended |} |};
         Provisioning_Groups := Some {| IDPAction_Action := groups |} |}.

Definition NewAccountLink (d : ResourceData) : outcome AccountLink :=
  link <- convertInterfaceToStringSet (Get d "account_link_group_include") ;;
  let filter :=
    if (0 <? Z.of_nat (length link))%Z
    then Some {| Filter_Groups := Some {| Include := link |} |}
    else None in
  action <- asString (Get d "account_link_action") ;;
  Ret {| AccountLink_Action := action; AccountLink_Filter := filter |}.

Definition NewSignature (d : ResourceData) (key : string) : outcome (option IDPSignature) :=
  let scopeKey := Sprintf_s key "_signature_scope" in
  scope <- asString (Get d scopeKey) ;;
  if String.eqb scope ""
  then Ret None
  else
    algorithm <- asString (Get d (Sprintf_s key "_signature_algorithm")) ;;
    Ret (Some {| Signature_ := Some {| Algorithm := algorithm; Scope := scope |} |}).

Definition NewAlgorithms (d : ResourceData) : outcome Algorithms :=
  request <- NewSignature d "request" ;;
  response <- NewSignature d "response" ;;
  Ret {| Request := request; Response_ := response |}.

Definition buildSocialIdp (d : ResourceData) : outcome OIDCIdentityProvider :=
  name <- asString (Get d "name") ;;
  type <- asString (Get d "type") ;;
  accountLink <- NewAccountLink d ;;
  maxClockSkew <- asInt (Get d "max_clock_skew") ;;
  provisioning <- NewIdpProvisioning d ;;
  matchType <- asString (Get d "subject_match_type") ;;
  template <- asString (Get d "username_template") ;;
  scopes <- convertInterfaceToStringSet (Get d "scopes") ;;
  protocolType <- asString (Get d "protocol_type") ;;
  clientID <- asString (Get d "client_id") ;;
  clientSecret <- asString (Get d "client_secret") ;;
  Ret {| ID := "";
         Name := name;
         Type_ := type;
         Status := "";
         IssuerMode := "";
         Policy := Some {|
           Policy_AccountLink := Some accountLink;
           MaxClockSkew := maxClockSkew;
           Provisioning := Some provisioning;
           Subject := Some {|
             MatchType := matchType;
             UserNameTemplate := Some {| Template := template |} |} |};
         Protocol := Some {|
           Scopes := scopes;
           Protocol_Type := protocolType;
           Credentials := Some {|
             Client_ := Some {| ClientID := clientID;
                                ClientSecret := clientSecret |} |} |} |}.

(** ** The SDK client *)

Definition error := string.

Record Response := { StatusCode : Z }.

Definition StatusNotFound : Z := 404.

Inductive Call :=
| DeactivateIdentityProvider (id : string)
| ActivateIdentityProvider (id : string)
| DeleteIdentityProvider (id : string)
| GetIdentityProvider (id : string)
| UpdateIdentityProvider (id : string) (idp : OIDCIdentityProvider)
| CreateIdentityProvider (idp : OIDCIdentityProvider).

(** What one SDK call hands back: the object decoded into the [idp] argument
    (if the call decoded one), the HTTP response (nil when none was received)
    and the error. *)
Record Reply := {
  decoded : option OIDCIdentityProvider;
  response : option Response;
  err : option error
}.

(** The client and the service behind it: the reply to a call may depend on
    every call made before it. *)
Definition Client := list Call -> Call -> Reply.

(** Handlers thread the log of the SDK calls made so far. *)
Definition M (A : Type) : Type := list Call -> outcome (A * list Call).

Definition ret {A : Type} (a : A) : M A := fun log => Ret (a, log).

Definition bind {A B : Type} (c : M A) (k : A -> M B) : M B :=
  fun log =>
    match c log with
    | Panic => Panic
    | Ret (a, log') => k a log'
    end.

Definition lift {A : Type} (o : outcome A) : M A :=
  fun log =>
    match o with
    | Panic => Panic
    | Ret a => Ret (a, log)
    end.

Definition sdk (client : Client) (c : Call) : M Reply :=
  fun log => Ret (client log c, (log ++ [c])%list).

Declare Scope handler_scope.
Delimit Scope handler_scope with handler.
Notation "x <- c ;; k" := (bind c (fun x => k))
  (at level 100, c at next level, right associativity) : handler_scope.

(** Modelled from the spec: [getSupplementFromMetadata] is declared outside
    the two files; it hands out the SDK client kept in the provider
    metadata. *)
Definition getSupplementFromMetadata (m : Client) : Client := m.

(** Modelled from the spec: [responseErr] is declared outside the two files;
    an error of the SDK/HTTP layer is propagated verbatim. *)
Definition responseErr (resp : option Response) (e : option error) : option error := e.

(** Modelled from the spec: [suppressErrorOn404] is declared outside the two
    files; the error is suppressed when the response is a 404 and propagated
    verbatim otherwise (also when there is no response). *)
Definition suppressErrorOn404 (resp : option Response) (e : option error) : option error :=
  match resp with
  | Some r => if (StatusCode r =? StatusNotFound)%Z then None else responseErr resp e
  | None => responseErr resp e
  end.

(** The object behind the [idp] pointer after a call that may decode into it. *)
Definition decodeInto (idp : OIDCIdentityProvider) (r : Reply) : OIDCIdentityProvider :=
  match decoded r with
  | Some idp' => idp'
  | None => idp
  end.

(** ** Lifecycle handlers ([idp.go]) *)

Section Handlers.
Local Open Scope handler_scope.

(** The result is the error returned ([None] is [nil]). The first block
    yields the error of its early [return], if it takes it. *)
Definition resourceDeleteAnyIdp (d : ResourceData) (m : Client) (active : bool)
  : M (option error) :=
  let client := getSupplementFromMetadata m in
  early <-
    (if active then
       r <- sdk client (DeactivateIdentityProvider (Id d)) ;;
       match err r with
       | Some e =>
           resp <- lift (deref (response r)) ;;
           if negb (StatusCode resp =? StatusNotFound)%Z
           then ret (Some e)
           else ret None
       | None => ret None
       end
     else ret None) ;;
  match early with
  | Some e => ret (Some e)
  | None =>
      r <- sdk client (DeleteIdentityProvider (Id d)) ;;
      match err r with
      | Some e => ret (suppressErrorOn404 (response r) (Some e))
      | None => ret None
      end
  end.

Definition resourceIdpDelete (d : ResourceData) (m : Client) : M (option error) :=
  status <- lift (asString (Get d "status")) ;;
  resourceDeleteAnyIdp d m (String.eqb status "ACTIVE").

(** [fetchIdp], [updateIdp] and [createIdp] receive [idp] as a pointer the
    SDK decodes into; they return the object behind the caller's pointer
    together with the error. Their [idp = nil] assigns the parameter only and
    leaves the caller's pointer as it is. *)
Definition fetchIdp (id : string) (m : Client) (idp : OIDCIdentityProvider)
  : M (OIDCIdentityProvider * option error) :=
  let client := getSupplementFromMetadata m in
  r <- sdk client (GetIdentityProvider id) ;;
  let idp := decodeInto idp r in
  resp <- lift (deref (response r)) ;;
  if (StatusCode resp =? StatusNotFound)%Z
  then ret (idp, None)
  else ret (idp, responseErr (response r) (err r)).

Definition updateIdp (id : string) (m : Client) (idp : OIDCIdentityProvider)
  : M (OIDCIdentityProvider * option error) :=
  let client := getSupplementFromMetadata m in
  r <- sdk client (UpdateIdentityProvider id idp) ;;
  let idp := decodeInto idp r in
  resp <- lift (deref (response r)) ;;
  if (StatusCode resp =? 404)%Z
  then ret (idp, None)
  else ret (idp, responseErr (response r) (err r)).

Definition createIdp (m : Client) (idp : OIDCIdentityProvider)
  : M (OIDCIdentityProvider * option error) :=
  let client := getSupplementFromMetadata m in
  r <- sdk client (CreateIdentityProvider idp) ;;
  let idp := decodeInto idp r in
  resp <- lift (deref (response r)) ;;
  if (StatusCode resp =? 404)%Z
  then ret (idp, None)
  else ret (idp, responseErr (response r) (err r)).

Definition setIdpStatus (id status desiredStatus : string) (m : Client)
  : M (option error) :=
  if negb (String.eqb status desiredStatus) then
    let c := getSupplementFromMetadata m in
    if String.eqb desiredStatus "INACTIVE" then
      r <- sdk c (DeactivateIdentityProvider id) ;;
      ret (responseErr (response r) (err r))
    else if String.eqb desiredStatus "ACTIVE" then
      r <- sdk c (ActivateIdentityProvider id) ;;
      ret (responseErr (response r) (err r))
    else ret None
  else ret None.

(** The closure returned by [getIdentityProviderExists(idp)]; the object the
    SDK decodes into is dropped. *)
Definition getIdentityProviderExists {T : Type} (idp : T)
    (d : ResourceData) (m : Client) : M (bool * option error) :=
  r <- sdk (getSupplementFromMetadata m) (GetIdentityProvider (Id d)) ;;
  resp <- lift (deref (response r)) ;;
  ret ((StatusCode resp =? 200)%Z, err r).

(** ** Lifecycle handlers ([resource_social_idp.go]) *)

(** [d.Set(key, value)] as a statement: the error is dropped. *)
Definition set_ (d : ResourceData) (key : string) (v : Value) : outcome ResourceData :=
  obind (Set_ d key v) (fun r => Ret (fst r)).

(** Modelled from the spec: [setNonPrimitives] is declared outside the two
    files; it stores each aggregate value and reports the first one the
    resource data refuses. *)
Fixpoint setNonPrimitives (d : ResourceData) (valueMap : list (string * Value))
  : outcome (ResourceData * option error) :=
  match valueMap with
  | [] => Ret (d, None)
  | (k, v) :: rest =>
      obind (Set_ d k v) (fun r =>
        if snd r then setNonPrimitives (fst r) rest
        else Ret (fst r, Some (String.append "error setting " k)))
  end.

Definition resourceSocialIdpRead (d : ResourceData) (m : Client)
  : M (ResourceData * option error) :=
  let idp := emptyOIDCIdentityProvider in
  fetched <- fetchIdp (Id d) m idp ;;
  let idp := fst fetched in
  match snd fetched with
  | Some e => ret (d, Some e)
  | None =>
      d <- lift (set_ d "name" (VString (Name idp))) ;;
      policy <- lift (deref (Policy idp)) ;;
      d <- lift (set_ d "max_clock_skew" (VInt (MaxClockSkew policy))) ;;
      provisioning <- lift (deref (Provisioning policy)) ;;
      d <- lift (set_ d "provisioning_action"
                   (VString (Provisioning_Action provisioning))) ;;
      conditions <- lift (deref (Conditions provisioning)) ;;
      d <- lift (set_ d "deprovisioned_action"
                   (VAction (Deprovisioned conditions))) ;;
      d <- lift (set_ d "suspended_action" (VAction (Suspended conditions))) ;;
      d <- lift (set_ d "profile_master" (VBool (ProfileMaster provisioning))) ;;
      groups <- lift (deref (Provisioning_Groups provisioning)) ;;
      d <- lift (set_ d "groups_action" (VString (IDPAction_Action groups))) ;;
      subject <- lift (deref (Subject policy)) ;;
      d <- lift (set_ d "subject_match_type" (VString (MatchType subject))) ;;
      template <- lift (deref (UserNameTemplate subject)) ;;
      d <- lift (set_ d "username_template" (VString (Template template))) ;;
      protocol <- lift (deref (Protocol idp)) ;;
      credentials <- lift (deref (Credentials protocol)) ;;
      client <- lift (deref (Client_ credentials)) ;;
      d <- lift (set_ d "client_id" (VString (ClientID client))) ;;
      d <- lift (set_ d "client_secret" (VString (ClientSecret client))) ;;
      d <- lift (if negb (String.eqb (IssuerMode idp) "")
                 then set_ d "issuer_mode" (VString (IssuerMode idp))
                 else Ret d) ;;
      d <- lift (match Policy_AccountLink policy with
                 | Some accountLink =>
                     obind (set_ d "account_link_action"
                              (VString (AccountLink_Action accountLink)))
                       (fun d =>
                          set_ d "account_link_group_include"
                            (VFilter (AccountLink_Filter accountLink)))
                 | None => Ret d
                 end) ;;
      lift (setNonPrimitives d
              [("scopes", convertStringSetToInterface (Scopes protocol))])
  end.

Definition resourceSocialIdpCreate (d : ResourceData) (m : Client)
  : M (ResourceData * option error) :=
  idp <- lift (buildSocialIdp d) ;;
  created <- createIdp m idp ;;
  let idp := fst created in
  match snd created with
  | Some e => ret (d, Some e)
  | None =>
      let d := SetId d (ID idp) in
      desired <- lift (asString (Get d "status")) ;;
      e <- setIdpStatus (ID idp) (Status idp) desired m ;;
      match e with
      | Some e => ret (d, Some e)
      | None => resourceSocialIdpRead d m
      end
  end.

Definition resourceSocialIdpUpdate (d : ResourceData) (m : Client)
  : M (ResourceData * option error) :=
  idp <- lift (buildSocialIdp d) ;;
  let d := SetPartial d true in
  updated <- updateIdp (Id d) m idp ;;
  let idp := fst updated in
  match snd updated with
  | Some e => ret (d, Some e)
  | None =>
      let d := SetPartial d false in
      desired <- lift (asString (Get d "status")) ;;
      e <- setIdpStatus (ID idp) (Status idp) desired m ;;
      match e with
      | Some e => ret (d, Some e)
      | None => resourceSocialIdpRead d m
      end
  end.

End Handlers.

(** ** What the configuration declares

    The configured value of a field, by declared type: what [d.Get] yields,
    unwrapped. *)

Definition fieldString (d : ResourceData) (key : string) : string :=
  match Get d key with VString s => s | _ => "" end.

Definition fieldInt (d : ResourceData) (key : string) : Z :=
  match Get d key with VInt n => n | _ => 0%Z end.

Definition fieldSet (d : ResourceData) (key : string) : list string :=
  match Get d key with VSet l => l | _ => [] end.

Definition declaredType (key : string) : option ValueType :=
  SchemaType <$> (resourceSocialIdpSchema !! key).

(** The payload the field-by-field mapping of the configuration describes. *)
Definition socialIdpPayload (d : ResourceData) : OIDCIdentityProvider :=
  let include := fieldSet d "account_link_group_include" in
  {| ID := "";
     Name := fieldString d "name";
     Type_ := fieldString d "type";
     Status := "";
     IssuerMode := "";
     Policy := Some {|
       Policy_AccountLink := Some {|
         AccountLink_Action := fieldString d "account_link_action";
         AccountLink_Filter :=
           match include with
           | [] => None
           | _ :: _ => Some {| Filter_Groups := Some {| Include := include |} |}
           end |};
       MaxClockSkew := fieldInt d "max_clock_skew";
       Provisioning := Some {|
         Provisioning_Action := fieldString d "provisioning_action";
         ProfileMaster := false;
         Conditions := Some {|
           Deprovisioned :=
             Some {| IDPAction_Action := fieldString d "deprovisioned_action" |};
           Suspended :=
             Some {| IDPAction_Action := fieldString d "suspended_action" |} |};
         Provisioning_Groups :=
           Some {| IDPAction_Action := fieldString d "groups_action" |} |};
       Subject := Some {|
         MatchType := fieldString d "subject_match_type";
         UserNameTemplate :=
           Some {| Template := fieldString d "username_template" |} |} |};
     Protocol := Some {|
       Scopes := fieldSet d "scopes";
       Protocol_Type := fieldString d "protocol_type";
       Credentials := Some {|
         Client_ := Some {| ClientID := fieldString d "client_id";
                            ClientSecret := fieldString d "client_secret" |} |} |} |}.

(** The calls the status reconciler makes. *)
Definition statusCalls (id status desiredStatus : string) : list Call :=
  if String.eqb status desiredStatus then []
  else if String.eqb desiredStatus "INACTIVE" then [DeactivateIdentityProvider id]
  else if String.eqb desiredStatus "ACTIVE" then [ActivateIdentityProvider id]
  else [].

(** The deletion itself, the last step of the delete handler. *)
Definition deleteStep (d : ResourceData) (m : Client) (log : list Call)
  : outcome (option error * list Call) :=
  let r := m log (DeleteIdentityProvider (Id d)) in
  Ret (match err r with
       | Some e => suppressErrorOn404 (response r) (Some e)
       | None => None
       end, (log ++ [DeleteIdentityProvider (Id d)])%list).

(** ** Services used as concrete inputs *)

Definition reply (body : option OIDCIdentityProvider) (status : Z)
    (e : option error) : Reply :=
  {| decoded := body; response := Some {| StatusCode := status |}; err := e |}.

(** The object is no longer there: every call is answered 404. *)
Definition removedService : Client :=
  fun _ _ => reply None 404 (Some "404 Not Found").

(** No HTTP response is ever received. *)
Definition unreachableService : Client :=
  fun _ _ => {| decoded := None; response := None;
                err := Some "dial tcp: connection refused" |}.

(** Every call is answered with a server error. *)
Definition failingService : Client :=
  fun _ _ => reply None 500 (Some "500 Internal Server Error").

(** The deactivation finds nothing, the deletion fails on the server. *)
Definition deleteFailingService : Client :=
  fun _ c =>
    match c with
    | DeleteIdentityProvider _ => reply None 500 (Some "500 Internal Server Error")
    | _ => reply None 404 (Some "404 Not Found")
    end.

(** A service that creates the object active under the id 0oa1 and serves it
    back; every other call succeeds. *)
Definition healthyService : Client :=
  fun _ c =>
    let stored idp :=
      {| ID := "0oa1"; Name := Name idp; Type_ := Type_ idp; Status := "ACTIVE";
         IssuerMode := "ORG_URL"; Policy := Policy idp; Protocol := Protocol idp |} in
    match c with
    | CreateIdentityProvider idp => reply (Some (stored idp)) 200 None
    | UpdateIdentityProvider _ idp => reply (Some (stored idp)) 200 None
    | GetIdentityProvider _ =>
        reply (Some (stored {|
          ID := ""; Name := "facebook"; Type_ := "FACEBOOK"; Status := "";
          IssuerMode := "";
          Policy := Some {|
            Policy_AccountLink := None; MaxClockSkew := 0;
            Provisioning := Some {|
              Provisioning_Action := "AUTO"; ProfileMaster := false;
              Conditions := Some {|
                Deprovisioned := Some {| IDPAction_Action := "NONE" |};
                Suspended := Some {| IDPAction_Action := "NONE" |} |};
              Provisioning_Groups := Some {| IDPAction_Action := "NONE" |} |};
            Subject := Some {|
              MatchType := "USERNAME";
              UserNameTemplate := Some {| Template := "idpuser.email" |} |} |};
          Protocol := Some {|
            Scopes := ["email"]; Protocol_Type := "OAUTH2";
            Credentials := Some {|
              Client_ := Some {| ClientID := "abc"; ClientSecret := "s3cret" |} |} |}
        |})) 200 None
    | _ => reply None 200 None
    end.

(** The deactivation fails without any response; every other call
    succeeds. *)
Definition deactivationLostService : Client :=
  fun log c =>
    match c with
    | DeactivateIdentityProvider _ =>
        {| decoded := None; response := None;
           err := Some "dial tcp: connection refused" |}
    | _ => healthyService log c
    end.

(** The create call is answered 404 with an error; every other call
    succeeds. *)
Definition createMissingService : Client :=
  fun log c =>
    match c with
    | CreateIdentityProvider _ => reply None 404 (Some "404 Not Found")
    | _ => healthyService log c
    end.

(** A declared configuration of a social identity provider. *)
Definition facebookConfig : ResourceData :=
  {| rd_id := "0oa1";
     rd_fields := list_to_map [
       ("name", VString "facebook");
       ("type", VString "FACEBOOK");
       ("status", VString "ACTIVE");
       ("scopes", VSet ["email"]);
       ("protocol_type", VString "OAUTH2");
       ("client_id", VString "abc");
       ("client_secret", VString "s3cret");
       ("account_link_group_include", VSet ["00g1"]);
       ("request_signature_scope", VString "REQUEST")
     ];
     rd_partial := false;
     rd_planned := true |}.

(** The keys [resourceSocialIdpRead] hands to [d.Set], in source order. *)
Definition readKeys : list string :=
  ["name"; "max_clock_skew"; "provisioning_action"; "deprovisioned_action";
   "suspended_action"; "profile_master"; "groups_action"; "subject_match_type";
   "username_template"; "client_id"; "client_secret"; "issuer_mode";
   "account_link_action"; "account_link_group_include"; "scopes"].

(** The keys [buildSocialIdp] and the builders it calls hand to [d.Get]. *)
Definition builderKeys : list string :=
  ["name"; "type"; "account_link_group_include"; "account_link_action";
   "max_clock_skew"; "provisioning_action"; "deprovisioned_action";
   "suspended_action"; "groups_action"; "subject_match_type";
   "username_template"; "scopes"; "protocol_type"; "client_id"; "client_secret"].

(** The sample configuration with another status, profile_master set and
    another resource id. *)
Definition facebookConfigInactive : ResourceData :=
  {| rd_id := "0oa2";
     rd_fields := <["status" := VString "INACTIVE"]>
                    (<["profile_master" := VBool true]> (rd_fields facebookConfig));
     rd_partial := true;
     rd_planned := true |}.

(** A service on which the created object comes back inactive, whatever was
    asked for; otherwise as [healthyService]. *)
Definition inactiveService : Client :=
  fun log c =>
    match c with
    | CreateIdentityProvider idp | UpdateIdentityProvider _ idp =>
        reply (Some {| ID := "0oa1"; Name := Name idp; Type_ := Type_ idp;
                       Status := "INACTIVE"; IssuerMode := "";
                       Policy := Policy idp; Protocol := Protocol idp |}) 200 None
    | _ => healthyService log c
    end.

(** A service that answers without ever handing back a response object or an
    error. *)
Definition silentService : Client :=
  fun _ _ => {| decoded := None; response := None; err := None |}.

(** The nested objects [resourceSocialIdpRead] selects through, when none of
    the pointers on the way is nil: policy, provisioning, conditions, groups,
    subject, username template, protocol, credentials and client. *)
Record SocialIdpParts := {
  part_policy : OIDCPolicy;
  part_provisioning : IDPProvisioning;
  part_conditions : IDPConditions;
  part_groups : IDPAction;
  part_subject : OIDCSubject;
  part_template : ApplicationCredentialsUsernameTemplate;
  part_protocol : OIDCProtocol;
  part_credentials : OIDCCredentials;
  part_client : OIDCClient
}.

Definition socialIdpParts (idp : OIDCIdentityProvider) : option SocialIdpParts :=
  match Policy idp with
  | None => None
  | Some policy =>
  match Provisioning policy with
  | None => None
  | Some provisioning =>
  match Conditions provisioning with
  | None => None
  | Some conditions =>
  match Provisioning_Groups provisioning with
  | None => None
  | Some groups =>
  match Subject policy with
  | None => None
  | Some subject =>
  match UserNameTemplate subject with
  | None => None
  | Some template =>
  match Protocol idp with
  | None => None
  | Some protocol =>
  match Credentials protocol with
  | None => None
  | Some credentials =>
  match Client_ credentials with
  | None => None
  | Some client =>
      Some {| part_policy := policy; part_provisioning := provisioning;
              part_conditions := conditions; part_groups := groups;
              part_subject := subject; part_template := template;
              part_protocol := protocol; part_credentials := credentials;
              part_client := client |}
  end end end end end end end end end.

(** The resource data after the [d.Set] statements of [resourceSocialIdpRead],
    before its closing [setNonPrimitives]. *)
Definition flattened (d : ResourceData) (idp : OIDCIdentityProvider)
    (p : SocialIdpParts) : outcome ResourceData :=
  d <- set_ d "name" (VString (Name idp)) ;;
  d <- set_ d "max_clock_skew" (VInt (MaxClockSkew (part_policy p))) ;;
  d <- set_ d "provisioning_action"
         (VString (Provisioning_Action (part_provisioning p))) ;;
  d <- set_ d "deprovisioned_action"
         (VAction (Deprovisioned (part_conditions p))) ;;
  d <- set_ d "suspended_action" (VAction (Suspended (part_conditions p))) ;;
  d <- set_ d "profile_master" (VBool (ProfileMaster (part_provisioning p))) ;;
  d <- set_ d "groups_action" (VString (IDPAction_Action (part_groups p))) ;;
  d <- set_ d "subject_match_type" (VString (MatchType (part_subject p))) ;;
  d <- set_ d "username_template" (VString (Template (part_template p))) ;;
  d <- set_ d "client_id" (VString (ClientID (part_client p))) ;;
  d <- set_ d "client_secret" (VString (ClientSecret (part_client p))) ;;
  d <- (if negb (String.eqb (IssuerMode idp) "")
        then set_ d "issuer_mode" (VString (IssuerMode idp))
        else Ret d) ;;
  match Policy_AccountLink (part_policy p) with
  | Some accountLink =>
      d <- set_ d "account_link_action"
             (VString (AccountLink_Action accountLink)) ;;
      set_ d "account_link_group_include" (VFilter (AccountLink_Filter accountLink))
  | None => Ret d
  end.

(** The field names the resource's schema declares. *)
Definition declaredKeys : list string :=
  Eval vm_compute in map fst (map_to_list resourceSocialIdpSchema).

(** [syncAlgo] ([idp.go]) on the resource data of a resource kind whose
    schema is [schema]; every [d.Set] error is dropped. *)
Definition syncAlgo (schema : gmap string Schema) (d : ResourceData)
    (alg : option Algorithms) : outcome ResourceData :=
  let set d key v := obind (SetIn schema d key v) (fun r => Ret (fst r)) in
  match alg with
  | Some alg =>
      d <- match Request alg with
           | Some request =>
               match Signature_ request with
               | Some reqSign =>
                   d <- set d "request_algorithm" (VString (Algorithm reqSign)) ;;
                   set d "request_scope" (VString (Scope reqSign))
               | None => Ret d
               end
           | None => Ret d
           end ;;
      match Response_ alg with
      | Some response =>
          match Signature_ response with
          | Some resSign =>
              d <- set d "response_algorithm" (VString (Algorithm resSign)) ;;
              set d "response_scope" (VString (Scope resSign))
          | None => Ret d
          end
      | None => Ret d
      end
  | None => Ret d
  end.

(** The keys [syncAlgo] hands to [d.Set]. *)
Definition syncAlgoKeys : list string :=
  ["request_algorithm"; "request_scope"; "response_algorithm"; "response_scope"].

(** The fields that [resourceSocialIdp] lays over the base schema. *)
Definition socialIdpFields : gmap string Schema :=
  list_to_map [
    ("authorization_url", optUrlSchema);
    ("authorization_binding", optBindingSchema);
    ("token_url", optUrlSchema);
    ("token_binding", optBindingSchema);
    ("type", {| SchemaType := TypeString; Required := true; Optional := false;
                Computed := false; Default := None;
                ValidateFunc := Some ["OIDC"; "FACEBOOK"; "LINKEDIN"; "MICROSOFT"; "GOOGLE"] |});
    ("scopes", {| SchemaType := TypeSet; Required := true; Optional := false;
                  Computed := false; Default := None; ValidateFunc := None |});
    ("protocol_type", optionalString (Some (VString "OIDC")) (Some ["OIDC"; "OAUTH2"]));
    ("client_id", optionalString None None);
    ("client_secret", optionalString None None);
    ("max_clock_skew",
       {| SchemaType := TypeInt; Required := false; Optional := true;
          Computed := false; Default := None; ValidateFunc := None |})
  ].

(** Algorithms as the service may hand them back. *)
Definition remoteAlgorithms : option Algorithms :=
  Some {| Request := Some {| Signature_ :=
                               Some {| Algorithm := "SHA-256"; Scope := "REQUEST" |} |};
          Response_ := Some {| Signature_ :=
                                 Some {| Algorithm := "SHA-256"; Scope := "ANY" |} |} |}.

(** The sample configuration with a second scope stored. *)
Definition twoScopesConfig : ResourceData :=
  stored facebookConfigInactive "scopes" (VSet ["email"; "public_profile"]).

(** A plain field name: a key without a dot. *)
Definition plainKey (key : string) : Prop :=
  ~ In "."%char (list_ascii_of_string key).

(** The field an address starts with: what comes before its first dot. *)
Definition fieldName (key : string) : string :=
  List.hd EmptyString (splitDot key).

(** [d'] differs from [d] at most in the fields [keys]. *)
Definition sameBut (keys : list string) (d d' : ResourceData) : Prop :=
  rd_id d' = rd_id d /\ rd_partial d' = rd_partial d /\
  rd_planned d' = rd_planned d /\
  forall key : string, ~ In key keys -> rd_fields d' !! key = rd_fields d !! key.

(** ** Reading through the schema *)

Lemma hasType_zeroValue (t : ValueType) : hasType (zeroValue t) t = true.
Proof. destruct t; reflexivity. Qed.

Lemma GetField_declared (d : ResourceData) (key : string) (t : ValueType) :
  declaredType key = Some t -> hasType (GetField d key) t = true.
Proof.
  unfold declaredType, GetField.
  destruct (resourceSocialIdpSchema !! key) as [sch|]; [|discriminate].
  cbn. intros [= <-].
  assert (Hf : hasType
                 match Default sch with
                 | Some v => if rd_planned d && hasType v (SchemaType sch)
                             then v else zeroValue (SchemaType sch)
                 | None => zeroValue (SchemaType sch)
                 end (SchemaType sch) = true).
  { destruct (Default sch) as [dv|]; [|apply hasType_zeroValue].
    destruct (rd_planned d); cbn; [|apply hasType_zeroValue].
    destruct (hasType dv (SchemaType sch)) eqn:Hd;
      [exact Hd|apply hasType_zeroValue]. }
  destruct (rd_fields d !! key) as [v|]; [|exact Hf].
  destruct (hasType v (SchemaType sch)) eqn:Hv; [exact Hv|exact Hf].
Qed.

Lemma GetField_undeclared (d : ResourceData) (key : string) :
  declaredType key = None -> GetField d key = VNil.
Proof.
  unfold declaredType, GetField.
  destruct (resourceSocialIdpSchema !! key); [discriminate|reflexivity].
Qed.

(** ** Plain field names *)

Lemma splitDot_nonempty (s : string) : splitDot s <> [].
Proof.
  destruct s as [|c rest]; cbn; [discriminate|].
  destruct (splitDot rest); [discriminate|].
  destruct (Ascii.eqb c "."); discriminate.
Qed.

Lemma splitDot_plain (key : string) : plainKey key -> splitDot key = [key].
Proof.
  unfold plainKey. induction key as [|c rest IH]; intros Hplain; [reflexivity|].
  cbn in *. rewrite IH by tauto.
  destruct (Ascii.eqb_spec c "."%char) as [->|_]; [|reflexivity].
  exfalso. apply Hplain. left. reflexivity.
Qed.

Lemma plainKey_append (key suffix : string) :
  plainKey key -> plainKey suffix -> plainKey (String.append key suffix).
Proof.
  unfold plainKey. induction key as [|c rest IH]; intros Hk Hs; [exact Hs|].
  cbn in *. intros [Hc|Hin]; [apply Hk; left; exact Hc|].
  apply IH; [|exact Hs|exact Hin]. tauto.
Qed.

Lemma fieldName_plain (key : string) : plainKey key -> fieldName key = key.
Proof. intros H. unfold fieldName. rewrite splitDot_plain by exact H. reflexivity. Qed.

Lemma Get_plain (d : ResourceData) (key : string) :
  plainKey key -> Get d key = GetField d key.
Proof. intros H. unfold Get. rewrite splitDot_plain by exact H. reflexivity. Qed.

Lemma declaredKeys_eq :
  map fst (map_to_list resourceSocialIdpSchema) = declaredKeys.
Proof. vm_compute. reflexivity. Qed.

Lemma declaredKeys_complete (key : string) (sch : Schema) :
  resourceSocialIdpSchema !! key = Some sch -> In key declaredKeys.
Proof.
  intros H. apply elem_of_map_to_list in H. apply list_elem_of_In in H.
  rewrite <- declaredKeys_eq.
  exact (in_map fst _ _ H).
Qed.

(** Every field name the schema declares is plain. *)
Lemma declared_plain (key : string) (t : ValueType) :
  declaredType key = Some t -> splitDot key = [key].
Proof.
  unfold declaredType.
  destruct (resourceSocialIdpSchema !! key) as [sch|] eqn:Hl; [|discriminate].
  intros _. apply declaredKeys_complete in Hl.
  unfold declaredKeys, In in Hl.
  repeat (destruct Hl as [<-|Hl]; [reflexivity|]).
  destruct Hl.
Qed.

Lemma Get_declared_field (d : ResourceData) (key : string) (t : ValueType) :
  declaredType key = Some t -> Get d key = GetField d key.
Proof. intros H. unfold Get. rewrite (declared_plain key t H). reflexivity. Qed.

Lemma Get_declared (d : ResourceData) (key : string) (t : ValueType) :
  declaredType key = Some t -> hasType (Get d key) t = true.
Proof.
  intros H. rewrite (Get_declared_field d key t H).
  apply GetField_declared, H.
Qed.

Lemma Get_undeclared (d : ResourceData) (key : string) :
  plainKey key -> declaredType key = None -> Get d key = VNil.
Proof.
  intros Hp H. rewrite Get_plain by exact Hp. apply GetField_undeclared, H.
Qed.

Lemma asString_Get (d : ResourceData) (key : string) :
  declaredType key = Some TypeString ->
  asString (Get d key) = Ret (fieldString d key).
Proof.
  intros H. apply (Get_declared d) in H. unfold fieldString.
  destruct (Get d key); try discriminate H. reflexivity.
Qed.

Lemma asInt_Get (d : ResourceData) (key : string) :
  declaredType key = Some TypeInt ->
  asInt (Get d key) = Ret (fieldInt d key).
Proof.
  intros H. apply (Get_declared d) in H. unfold fieldInt.
  destruct (Get d key); try discriminate H. reflexivity.
Qed.

Lemma convertInterfaceToStringSet_Get (d : ResourceData) (key : string) :
  declaredType key = Some TypeSet ->
  convertInterfaceToStringSet (Get d key) = Ret (fieldSet d key).
Proof.
  intros H. apply (Get_declared d) in H. unfold fieldSet.
  destruct (Get d key); try discriminate H. reflexivity.
Qed.

(** A stored value of the declared type is the configured value. *)
Lemma Get_stored (d : ResourceData) (key : string) (v : Value) (t : ValueType) :
  declaredType key = Some t ->
  rd_fields d !! key = Some v ->
  hasType v t = true ->
  Get d key = v.
Proof.
  intros Ht Hs Hv. rewrite (Get_declared_field d key t Ht).
  revert Ht. unfold declaredType, GetField.
  destruct (resourceSocialIdpSchema !! key) as [sch|]; [|discriminate].
  cbn. intros [= <-]. rewrite Hs, Hv. reflexivity.
Qed.

Ltac declared := vm_compute; reflexivity.

Ltac read_field :=
  first
    [ rewrite asString_Get by declared
    | rewrite asInt_Get by declared
    | rewrite convertInterfaceToStringSet_Get by declared ];
  cbn [obind].

(** ** Builders *)

Lemma NewIdpProvisioning_eq (d : ResourceData) :
  NewIdpProvisioning d =
  Ret {| Provisioning_Action := fieldString d "provisioning_action";
         ProfileMaster := false;
         Conditions := Some {|
           Deprovisioned :=
             Some {| IDPAction_Action := fieldString d "deprovisioned_action" |};
           Suspended :=
             Some {| IDPAction_Action := fieldString d "suspended_action" |} |};
         Provisioning_Groups :=
           Some {| IDPAction_Action := fieldString d "groups_action" |} |}.
Proof. unfold NewIdpProvisioning. repeat read_field. reflexivity. Qed.

Lemma NewAccountLink_eq (d : ResourceData) :
  NewAccountLink d =
  Ret {| AccountLink_Action := fieldString d "account_link_action";
         AccountLink_Filter :=
           match fieldSet d "account_link_group_include" with
           | [] => None
           | _ :: _ =>
               Some {| Filter_Groups :=
                         Some {| Include := fieldSet d "account_link_group_include" |} |}
           end |}.
Proof.
  unfold NewAccountLink. repeat read_field.
  destruct (fieldSet d "account_link_group_include"); reflexivity.
Qed.

Lemma buildSocialIdp_eq (d : ResourceData) :
  buildSocialIdp d = Ret (socialIdpPayload d).
Proof.
  unfold buildSocialIdp.
  rewrite NewAccountLink_eq, NewIdpProvisioning_eq.
  repeat read_field. reflexivity.
Qed.


(** C9. [NewAccountLink] returns an account link whose filter is nil exactly
    when the configured account_link_group_include set is empty; a non-empty
    set is the filter's included groups; the action is the configured
    account_link_action either way. *)
Theorem NewAccountLink_filter (d : ResourceData) :
  exists link : AccountLink,
    NewAccountLink d = Ret link /\
    (AccountLink_Filter link = None <->
       fieldSet d "account_link_group_include" = []) /\
    (fieldSet d "account_link_group_include" <> [] ->
       AccountLink_Filter link =
       Some {| Filter_Groups :=
                 Some {| Include := fieldSet d "account_link_group_include" |} |}) /\
    AccountLink_Action link = fieldString d "account_link_action".
Proof.
  eexists. split; [apply NewAccountLink_eq|]. cbn.
  destruct (fieldSet d "account_link_group_include") as [|g gs].
  - repeat split; intros; congruence.
  - repeat split; intros; congruence.
Qed.

Lemma NewAccountLink_filter_witness :
  fieldSet facebookConfig "account_link_group_include" <> [] /\
  NewAccountLink facebookConfig =
  Ret {| AccountLink_Action := "AUTO";
         AccountLink_Filter :=
           Some {| Filter_Groups := Some {| Include := ["00g1"] |} |} |}.
Proof.
  split; [discriminate|].
  destruct (NewAccountLink_filter facebookConfig) as (link & Hrun & _ & Hset & Haction).
  rewrite Hrun. destruct link as [action filter]. cbn in Hset, Haction.
  rewrite Hset by discriminate. rewrite Haction. reflexivity.
Defined.

Lemma NewSignature_eq (d : ResourceData) (key : string) :
  declaredType (Sprintf_s key "_signature_scope") = Some TypeString ->
  declaredType (Sprintf_s key "_signature_algorithm") = Some TypeString ->
  NewSignature d key =
  Ret (if String.eqb (fieldString d (Sprintf_s key "_signature_scope")) ""
       then None
       else Some {| Signature_ := Some {|
              Algorithm := fieldString d (Sprintf_s key "_signature_algorithm");
              Scope := fieldString d (Sprintf_s key "_signature_scope") |} |}).
Proof.
  intros Hs Ha. unfold NewSignature.
  rewrite (asString_Get d _ Hs). cbn [obind].
  destruct (String.eqb _ ""); [reflexivity|].
  rewrite (asString_Get d _ Ha). reflexivity.
Qed.

(** C10. For each of the keys "request" and "response", [NewSignature]
    returns nil exactly when the configured <key>_signature_scope is the
    empty string, and otherwise a signature carrying the configured
    <key>_signature_algorithm and <key>_signature_scope. *)
Theorem NewSignature_scope (d : ResourceData) :
  Forall
    (fun key : string =>
       let scope := fieldString d (Sprintf_s key "_signature_scope") in
       let algorithm := fieldString d (Sprintf_s key "_signature_algorithm") in
       exists sig : option IDPSignature,
         NewSignature d key = Ret sig /\
         (sig = None <-> scope = "") /\
         (scope <> "" ->
            sig = Some {| Signature_ :=
                            Some {| Algorithm := algorithm; Scope := scope |} |}))
    ["request"; "response"].
Proof.
  repeat constructor.
  all: cbv zeta; eexists; (split; [apply NewSignature_eq; declared|]).
  all: match goal with
       | |- context [String.eqb ?s ""] => destruct (String.eqb_spec s "") as [E|E]
       end.
  all: repeat split; intros; congruence.
Qed.

Lemma NewSignature_scope_witness :
  fieldString facebookConfig (Sprintf_s "request" "_signature_scope") <> "" /\
  NewSignature facebookConfig "request" =
  Ret (Some {| Signature_ :=
                 Some {| Algorithm := "SHA-256"; Scope := "REQUEST" |} |}).
Proof.
  split; [discriminate|].
  pose proof (NewSignature_scope facebookConfig) as Hall.
  apply Forall_cons_iff in Hall as [(sig & Hrun & _ & Hset) _].
  rewrite Hrun, Hset by discriminate. reflexivity.
Defined.

(** The configured value of a field is the stored one: the payload built from
    the sample configuration, field by field. *)
Example buildSocialIdp_facebookConfig :
  Get facebookConfig "name" = VString "facebook" /\
  buildSocialIdp facebookConfig =
  Ret {| ID := ""; Name := "facebook"; Type_ := "FACEBOOK"; Status := "";
         IssuerMode := "";
         Policy := Some {|
           Policy_AccountLink := Some {|
             AccountLink_Action := "AUTO";
             AccountLink_Filter :=
               Some {| Filter_Groups := Some {| Include := ["00g1"] |} |} |};
           MaxClockSkew := 0;
           Provisioning := Some {|
             Provisioning_Action := "AUTO"; ProfileMaster := false;
             Conditions := Some {|
               Deprovisioned := Some {| IDPAction_Action := "NONE" |};
               Suspended := Some {| IDPAction_Action := "NONE" |} |};
             Provisioning_Groups := Some {| IDPAction_Action := "NONE" |} |};
           Subject := Some {|
             MatchType := "USERNAME";
             UserNameTemplate := Some {| Template := "idpuser.email" |} |} |};
         Protocol := Some {|
           Scopes := ["email"]; Protocol_Type := "OAUTH2";
           Credentials := Some {|
             Client_ := Some {| ClientID := "abc"; ClientSecret := "s3cret" |} |} |} |}.
Proof.
  split.
  - apply (Get_stored facebookConfig "name" _ TypeString); reflexivity.
  - rewrite buildSocialIdp_eq. reflexivity.
Qed.

(** ** Running the SDK-facing helpers *)

Lemma fetchIdp_run (id : string) (m : Client) (idp : OIDCIdentityProvider)
    (log : list Call) :
  fetchIdp id m idp log =
  let r := m log (GetIdentityProvider id) in
  match response r with
  | None => Panic
  | Some resp =>
      Ret ((decodeInto idp r,
            if (StatusCode resp =? 404)%Z then None else err r),
           (log ++ [GetIdentityProvider id])%list)
  end.
Proof.
  unfold fetchIdp, bind, sdk, lift, ret, getSupplementFromMetadata, responseErr,
    StatusNotFound. cbv zeta.
  destruct (response (m log (GetIdentityProvider id))) as [resp|]; cbn; [|reflexivity].
  destruct (StatusCode resp =? 404)%Z; reflexivity.
Qed.

Lemma updateIdp_run (id : string) (m : Client) (idp : OIDCIdentityProvider)
    (log : list Call) :
  updateIdp id m idp log =
  let r := m log (UpdateIdentityProvider id idp) in
  match response r with
  | None => Panic
  | Some resp =>
      Ret ((decodeInto idp r,
            if (StatusCode resp =? 404)%Z then None else err r),
           (log ++ [UpdateIdentityProvider id idp])%list)
  end.
Proof.
  unfold updateIdp, bind, sdk, lift, ret, getSupplementFromMetadata, responseErr.
  cbv zeta.
  destruct (response (m log (UpdateIdentityProvider id idp))) as [resp|]; cbn;
    [|reflexivity].
  destruct (StatusCode resp =? 404)%Z; reflexivity.
Qed.

Lemma createIdp_run (m : Client) (idp : OIDCIdentityProvider) (log : list Call) :
  createIdp m idp log =
  let r := m log (CreateIdentityProvider idp) in
  match response r with
  | None => Panic
  | Some resp =>
      Ret ((decodeInto idp r,
            if (StatusCode resp =? 404)%Z then None else err r),
           (log ++ [CreateIdentityProvider idp])%list)
  end.
Proof.
  unfold createIdp, bind, sdk, lift, ret, getSupplementFromMetadata, responseErr.
  cbv zeta.
  destruct (response (m log (CreateIdentityProvider idp))) as [resp|]; cbn;
    [|reflexivity].
  destruct (StatusCode resp =? 404)%Z; reflexivity.
Qed.

Lemma setIdpStatus_run (id status desiredStatus : string) (m : Client)
    (log : list Call) :
  exists e : option error,
    setIdpStatus id status desiredStatus m log =
    Ret (e, (log ++ statusCalls id status desiredStatus)%list).
Proof.
  unfold setIdpStatus, statusCalls, bind, sdk, ret, getSupplementFromMetadata,
    responseErr.
  destruct (String.eqb status desiredStatus); cbn.
  - eexists. rewrite app_nil_r. reflexivity.
  - destruct (String.eqb desiredStatus "INACTIVE"); [eexists; reflexivity|].
    destruct (String.eqb desiredStatus "ACTIVE"); [eexists; reflexivity|].
    eexists. rewrite app_nil_r. reflexivity.
Qed.

(** ** Resource data under [d.Set] *)

Lemma obind_Ret_inv {A B : Type} (o : outcome A) (k : A -> outcome B) (b : B) :
  obind o k = Ret b -> exists a : A, o = Ret a /\ k a = Ret b.
Proof. destruct o as [|a]; [discriminate|]. intros H. exists a. split; [reflexivity|exact H]. Qed.

Lemma sameBut_refl (keys : list string) (d : ResourceData) : sameBut keys d d.
Proof. repeat split. Qed.

Lemma sameBut_trans (keys1 keys2 : list string) (d1 d2 d3 : ResourceData) :
  sameBut keys1 d1 d2 -> sameBut keys2 d2 d3 -> sameBut (keys1 ++ keys2) d1 d3.
Proof.
  intros (Hi1 & Hp1 & Hl1 & Hf1) (Hi2 & Hp2 & Hl2 & Hf2).
  split; [congruence|]. split; [congruence|]. split; [congruence|].
  intros key Hnin. rewrite Hf2, Hf1; [reflexivity| |];
    intros Hin; apply Hnin, in_or_app; tauto.
Qed.

Lemma sameBut_incl (keys1 keys2 : list string) (d d' : ResourceData) :
  incl keys1 keys2 -> sameBut keys1 d d' -> sameBut keys2 d d'.
Proof.
  intros Hincl (Hi & Hp & Hl & Hf). repeat split; try assumption.
  intros key Hnin. apply Hf. intros Hin. apply Hnin, Hincl, Hin.
Qed.

Lemma sameBut_stored (d : ResourceData) (key : string) (v : Value) :
  sameBut [key] d (stored d key v).
Proof.
  repeat split. intros k Hnin. cbn. apply lookup_insert_ne.
  intros ->. apply Hnin. left. reflexivity.
Qed.

Lemma SetIn_sameBut (schema : gmap string Schema) (d d' : ResourceData)
    (key : string) (v : Value) (ok : bool) :
  SetIn schema d key v = Ret (d', ok) -> sameBut [key] d d'.
Proof.
  unfold SetIn.
  destruct (schema !! key) as [sch|];
    [|intros [= <- _]; apply sameBut_refl].
  destruct v as [| | | | |[a|]|[f|]]; destruct (SchemaType sch); cbn;
    try discriminate;
    first [ intros [= <- _]; first [apply sameBut_stored | apply sameBut_refl] ].
Qed.

Lemma SetIn_undeclared (schema : gmap string Schema) (d : ResourceData)
    (key : string) (v : Value) :
  schema !! key = None -> SetIn schema d key v = Ret (d, false).
Proof. unfold SetIn. intros ->. reflexivity. Qed.

Lemma set__sameBut (d d' : ResourceData) (key : string) (v : Value) :
  set_ d key v = Ret d' -> sameBut [key] d d'.
Proof.
  unfold set_, Set_. intros H.
  apply obind_Ret_inv in H as ([d1 ok] & Hset & [= <-]).
  apply SetIn_sameBut in Hset. exact Hset.
Qed.

(** A value of the declared type is stored. *)
Lemma set__typed (d : ResourceData) (key : string) (v : Value) (t : ValueType) :
  declaredType key = Some t -> hasType v t = true ->
  set_ d key v = Ret (stored d key v).
Proof.
  unfold declaredType, set_, Set_, SetIn.
  destruct (resourceSocialIdpSchema !! key) as [sch|]; [|discriminate].
  cbn. intros [= <-] Hv.
  destruct v as [| | | | |a|f]; destruct (SchemaType sch);
    try discriminate Hv; reflexivity.
Qed.

(** A pointer to an action handed to a scalar field: nil stores the zero
    value, anything else is refused. *)
Lemma set__action (d : ResourceData) (key : string) (a : option IDPAction) :
  declaredType key = Some TypeString ->
  set_ d key (VAction a) =
  Ret (match a with
       | None => stored d key (VString "")
       | Some _ => d
       end).
Proof.
  unfold declaredType, set_, Set_, SetIn.
  destruct (resourceSocialIdpSchema !! key) as [sch|]; [|discriminate].
  cbn. intros [= ->]. destruct a; reflexivity.
Qed.

(** A pointer to a filter handed to a set field: nil stores the empty set,
    anything else panics. *)
Lemma set__filter (d : ResourceData) (key : string) (f : option Filter) :
  declaredType key = Some TypeSet ->
  set_ d key (VFilter f) =
  match f with
  | None => Ret (stored d key (VSet []))
  | Some _ => Panic
  end.
Proof.
  unfold declaredType, set_, Set_, SetIn.
  destruct (resourceSocialIdpSchema !! key) as [sch|]; [|discriminate].
  cbn. intros [= ->]. destruct f; reflexivity.
Qed.

Lemma set__undeclared (d : ResourceData) (key : string) (v : Value) :
  declaredType key = None -> set_ d key v = Ret d.
Proof.
  unfold declaredType, set_, Set_, SetIn.
  destruct (resourceSocialIdpSchema !! key) as [sch|]; [discriminate|reflexivity].
Qed.

Lemma setNonPrimitives_scopes (d : ResourceData) (l : list string) :
  setNonPrimitives d [("scopes", convertStringSetToInterface l)] =
  Ret (stored d "scopes" (VSet l), None).
Proof. reflexivity. Qed.

(** ** The read handler, step by step *)

Ltac declared_none := vm_compute; reflexivity.

Ltac run_set :=
  first
    [ rewrite set__typed with (t := TypeString) by declared
    | rewrite set__typed with (t := TypeInt) by declared
    | rewrite set__typed with (t := TypeBool) by declared
    | rewrite set__action by declared
    | rewrite set__undeclared by declared_none ];
  cbv beta iota.

Lemma flattened_sameBut (d d' : ResourceData) (idp : OIDCIdentityProvider)
    (p : SocialIdpParts) :
  flattened d idp p = Ret d' ->
  sameBut ["name"; "max_clock_skew"; "provisioning_action"; "deprovisioned_action";
           "suspended_action"; "profile_master"; "groups_action";
           "subject_match_type"; "username_template"; "client_id";
           "client_secret"; "issuer_mode"; "account_link_action";
           "account_link_group_include"] d d'.
Proof.
  unfold flattened. intros H.
  repeat match type of H with
         | obind (set_ _ _ _) _ = Ret _ =>
             let Hs := fresh "Hs" in
             apply obind_Ret_inv in H as (? & Hs & H);
             apply set__sameBut in Hs
         end.
  apply obind_Ret_inv in H as (d12 & Hissuer & H).
  assert (H12 : sameBut ["issuer_mode"] x9 d12).
  { destruct (negb (String.eqb (IssuerMode idp) ""));
      [apply set__sameBut in Hissuer; exact Hissuer|].
    injection Hissuer as <-. apply sameBut_refl. }
  assert (H14 : sameBut ["account_link_action"; "account_link_group_include"] d12 d').
  { destruct (Policy_AccountLink (part_policy p)) as [accountLink|].
    - apply obind_Ret_inv in H as (d13 & Ha & Hb).
      apply set__sameBut in Ha, Hb.
      exact (sameBut_trans _ _ _ _ _ Ha Hb).
    - injection H as <-. eapply sameBut_incl; [|apply (sameBut_refl [])].
      intros k []. }
  repeat match goal with
         | Ha : sameBut _ d ?x, Hb : sameBut _ ?x _ |- _ =>
             pose proof (sameBut_trans _ _ _ _ _ Ha Hb); clear Ha Hb
         end.
  assumption.
Qed.

Lemma resourceSocialIdpRead_run (d : ResourceData) (m : Client) (log : list Call) :
  resourceSocialIdpRead d m log =
  let r := m log (GetIdentityProvider (Id d)) in
  let idp := decodeInto emptyOIDCIdentityProvider r in
  let log1 := (log ++ [GetIdentityProvider (Id d)])%list in
  match response r with
  | None => Panic
  | Some resp =>
      match (if (StatusCode resp =? 404)%Z then None else err r) with
      | Some e => Ret ((d, Some e), log1)
      | None =>
          match socialIdpParts idp with
          | None => Panic
          | Some p =>
              match flattened d idp p with
              | Panic => Panic
              | Ret d' =>
                  Ret ((stored d' "scopes" (VSet (Scopes (part_protocol p))),
                        None), log1)
              end
          end
      end
  end.
Proof.
  unfold resourceSocialIdpRead, bind at 1. rewrite fetchIdp_run. cbv zeta.
  destruct (response (m log (GetIdentityProvider (Id d)))) as [resp|];
    [|reflexivity].
  cbn [fst snd].
  destruct (if (StatusCode resp =? 404)%Z then None
            else err (m log (GetIdentityProvider (Id d)))) as [e0|];
    [reflexivity|].
  unfold socialIdpParts, flattened, bind, lift, ret, obind.
  repeat first
    [ run_set
    | match goal with
      | |- context [deref ?p] => destruct p; cbn [deref]; [|reflexivity]
      end ];
  cbn [part_policy part_provisioning part_conditions part_groups part_subject
       part_template part_protocol part_credentials part_client].
  repeat run_set.
  destruct (negb (String.eqb (IssuerMode _) "")); repeat run_set.
  all: match goal with
       | |- context [Policy_AccountLink ?x] =>
           destruct (Policy_AccountLink x) as [accountLink|]
       end.
  all: repeat run_set.
  all: rewrite ?set__filter by declared.
  all: try (destruct (AccountLink_Filter accountLink); cbv beta iota).
  all: rewrite ?setNonPrimitives_scopes; reflexivity.
Qed.

(** Whenever the read handler returns, it has made the one fetch by id and
    has left the resource id as it found it. *)
Lemma resourceSocialIdpRead_sameBut (d d' : ResourceData) (m : Client)
    (e : option error) (log log' : list Call) :
  resourceSocialIdpRead d m log = Ret ((d', e), log') ->
  log' = (log ++ [GetIdentityProvider (Id d)])%list /\ sameBut readKeys d d'.
Proof.
  rewrite resourceSocialIdpRead_run. cbv zeta.
  destruct (response (m log (GetIdentityProvider (Id d)))) as [resp|];
    [|discriminate].
  destruct (if (StatusCode resp =? 404)%Z then None else _) as [e0|].
  { intros [= <- _ <-]. split; [reflexivity|apply sameBut_refl]. }
  destruct (socialIdpParts _) as [p|]; [|discriminate].
  destruct (flattened d _ p) as [|d1] eqn:Hf; [discriminate|].
  intros [= <- _ <-]. split; [reflexivity|].
  apply flattened_sameBut in Hf.
  pose proof (sameBut_trans _ _ _ _ _ Hf
                (sameBut_stored d1 "scopes" (VSet (Scopes (part_protocol p))))) as H.
  exact H.
Qed.

Lemma resourceSocialIdpRead_returns (d d' : ResourceData) (m : Client)
    (e : option error) (log log' : list Call) :
  resourceSocialIdpRead d m log = Ret ((d', e), log') ->
  log' = (log ++ [GetIdentityProvider (Id d)])%list /\ rd_id d' = rd_id d.
Proof.
  intros H. apply resourceSocialIdpRead_sameBut in H as [Hlog (Hid & _)].
  split; assumption.
Qed.

Lemma resourceSocialIdpRead_partial (d d' : ResourceData) (m : Client)
    (e : option error) (log log' : list Call) :
  resourceSocialIdpRead d m log = Ret ((d', e), log') ->
  rd_partial d' = rd_partial d.
Proof.
  intros H. apply resourceSocialIdpRead_sameBut in H as [_ (_ & Hp & _)].
  exact Hp.
Qed.

(** ** Status reconciler *)

(** C3, as amended. [setIdpStatus] makes no call when the desired status
    equals the current one; when they differ it makes exactly one call, a
    deactivation if the desired status is "INACTIVE" and an activation if it
    is "ACTIVE", and returns that call's error; a desired status that is
    neither makes no call. *)
Theorem setIdpStatus_calls (id status desiredStatus : string) (m : Client)
    (log : list Call) :
  (status = desiredStatus ->
     setIdpStatus id status desiredStatus m log = Ret (None, log)) /\
  (status <> desiredStatus -> desiredStatus = "INACTIVE" ->
     setIdpStatus id status desiredStatus m log =
     Ret (err (m log (DeactivateIdentityProvider id)),
          (log ++ [DeactivateIdentityProvider id])%list)) /\
  (status <> desiredStatus -> desiredStatus = "ACTIVE" ->
     setIdpStatus id status desiredStatus m log =
     Ret (err (m log (ActivateIdentityProvider id)),
          (log ++ [ActivateIdentityProvider id])%list)) /\
  (desiredStatus <> "INACTIVE" -> desiredStatus <> "ACTIVE" ->
     setIdpStatus id status desiredStatus m log = Ret (None, log)).
Proof.
  unfold setIdpStatus, bind, sdk, ret, getSupplementFromMetadata, responseErr.
  repeat split.
  - intros ->. rewrite String.eqb_refl. reflexivity.
  - intros Hne ->. apply String.eqb_neq in Hne. rewrite Hne. reflexivity.
  - intros Hne ->. apply String.eqb_neq in Hne. rewrite Hne. reflexivity.
  - intros Hi Ha. apply String.eqb_neq in Hi, Ha. rewrite Hi, Ha.
    destruct (negb _); reflexivity.
Qed.

Lemma setIdpStatus_calls_witness :
  "ACTIVE" <> "INACTIVE" /\
  setIdpStatus "0oa1" "ACTIVE" "INACTIVE" healthyService [] =
  Ret (None, [DeactivateIdentityProvider "0oa1"]).
Proof.
  split; [discriminate|].
  apply (proj1 (proj2 (setIdpStatus_calls "0oa1" "ACTIVE" "INACTIVE"
                         healthyService []))); [discriminate|reflexivity].
Defined.

(** C3 as stated fails: the statuses "ACTIVE" and "STAGED" differ, yet the
    reconciler makes no call at all. *)
Lemma setIdpStatus_differs_without_call :
  "ACTIVE" <> "STAGED" /\
  ~ (exists (e : option error) (c : Call),
       setIdpStatus "0oa1" "ACTIVE" "STAGED" healthyService [] = Ret (e, [c])).
Proof.
  split; [discriminate|].
  intros (e & c & H). vm_compute in H. discriminate H.
Qed.

(** ** Exists *)

(** C6. The exists handler makes the one fetch by the resource id, and it
    returns true exactly when the service answers with HTTP 200; on any
    response it returns whether the status is 200 together with the SDK's
    error. *)
Theorem getIdentityProviderExists_iff_200 (T : Type) (idp : T)
    (d : ResourceData) (m : Client) (log : list Call) :
  ((exists (e : option error) (log' : list Call),
      getIdentityProviderExists idp d m log = Ret ((true, e), log')) <->
   (exists resp : Response,
      response (m log (GetIdentityProvider (Id d))) = Some resp /\
      StatusCode resp = 200%Z)) /\
  (forall resp : Response,
     response (m log (GetIdentityProvider (Id d))) = Some resp ->
     getIdentityProviderExists idp d m log =
     Ret (((StatusCode resp =? 200)%Z, err (m log (GetIdentityProvider (Id d)))),
          (log ++ [GetIdentityProvider (Id d)])%list)).
Proof.
  unfold getIdentityProviderExists, bind, sdk, lift, ret, getSupplementFromMetadata.
  destruct (response (m log (GetIdentityProvider (Id d)))) as [resp|]; cbn.
  - split.
    + split.
      * intros (e & log' & H). injection H as Hb _ _.
        exists resp. split; [reflexivity|]. apply Z.eqb_eq, Hb.
      * intros (resp' & [= <-] & Hs). rewrite Hs. do 2 eexists. reflexivity.
    + intros resp' [= <-]. reflexivity.
  - split.
    + split.
      * intros (e & log' & H). discriminate H.
      * intros (resp' & H & _). discriminate H.
    + intros resp' H. discriminate H.
Qed.

Lemma getIdentityProviderExists_iff_200_witness :
  response (removedService [] (GetIdentityProvider (Id facebookConfig))) =
    Some {| StatusCode := 404 |} /\
  getIdentityProviderExists emptyOIDCIdentityProvider facebookConfig removedService [] =
  Ret ((false, Some "404 Not Found"), [GetIdentityProvider "0oa1"]).
Proof.
  split; [reflexivity|].
  apply (proj2 (getIdentityProviderExists_iff_200 OIDCIdentityProvider
                  emptyOIDCIdentityProvider facebookConfig removedService [])
           {| StatusCode := 404 |}).
  reflexivity.
Defined.

(** ** Delete *)

Lemma resourceDeleteAnyIdp_active_run (d : ResourceData) (m : Client)
    (log : list Call) :
  resourceDeleteAnyIdp d m true log =
  let r := m log (DeactivateIdentityProvider (Id d)) in
  let log1 := (log ++ [DeactivateIdentityProvider (Id d)])%list in
  match err r with
  | None => deleteStep d m log1
  | Some e =>
      match response r with
      | None => Panic
      | Some resp =>
          if (StatusCode resp =? 404)%Z then deleteStep d m log1
          else Ret (Some e, log1)
      end
  end.
Proof.
  unfold resourceDeleteAnyIdp, deleteStep, bind, sdk, lift, ret,
    getSupplementFromMetadata, StatusNotFound.
  cbv zeta.
  destruct (err (m log (DeactivateIdentityProvider (Id d)))) as [e|]; cbn.
  - destruct (response (m log (DeactivateIdentityProvider (Id d)))) as [resp|];
      cbn; [|reflexivity].
    destruct (StatusCode resp =? 404)%Z; cbn; [|reflexivity].
    destruct (err (m _ (DeleteIdentityProvider (Id d)))); reflexivity.
  - destruct (err (m _ (DeleteIdentityProvider (Id d)))); reflexivity.
Qed.

Lemma resourceDeleteAnyIdp_inactive_run (d : ResourceData) (m : Client)
    (log : list Call) :
  resourceDeleteAnyIdp d m false log = deleteStep d m log.
Proof.
  unfold resourceDeleteAnyIdp, deleteStep, bind, sdk, lift, ret,
    getSupplementFromMetadata.
  cbv zeta.
  destruct (err (m log (DeleteIdentityProvider (Id d)))); reflexivity.
Qed.

(** With no deactivation to make, a deletion that receives no response
    hands its error back. *)
Lemma resourceDeleteAnyIdp_inactive_unreachable (d : ResourceData) (log : list Call) :
  resourceDeleteAnyIdp d unreachableService false log =
  Ret (Some "dial tcp: connection refused",
       (log ++ [DeleteIdentityProvider (Id d)])%list).
Proof. rewrite resourceDeleteAnyIdp_inactive_run. reflexivity. Qed.

(** The handler registered for the resource computes [active] from the
    configured status. *)
Lemma resourceIdpDelete_eq (d : ResourceData) (m : Client) (log : list Call) :
  resourceIdpDelete d m log =
  resourceDeleteAnyIdp d m (String.eqb (fieldString d "status") "ACTIVE") log.
Proof.
  unfold resourceIdpDelete, bind at 1. unfold lift.
  rewrite asString_Get by declared. reflexivity.
Qed.

(** Deleting an active identity provider, as far as responses are received:
    when the deactivation and the deletion are both answered 404, the handler
    returns no error after making the two calls; an error of the deactivation
    that comes with a response other than 404 is returned and the deletion is
    not attempted; an error of the deletion that does not come with a 404 is
    returned. *)
Lemma resourceDeleteAnyIdp_tolerates_404 (d : ResourceData) (m : Client)
    (log : list Call) :
  (forall resp1 resp2 : Response,
     response (m log (DeactivateIdentityProvider (Id d))) = Some resp1 ->
     StatusCode resp1 = 404%Z ->
     response (m (log ++ [DeactivateIdentityProvider (Id d)])%list
                 (DeleteIdentityProvider (Id d))) = Some resp2 ->
     StatusCode resp2 = 404%Z ->
     resourceDeleteAnyIdp d m true log =
     Ret (None, (log ++ [DeactivateIdentityProvider (Id d);
                         DeleteIdentityProvider (Id d)])%list)) /\
  (forall (e : error) (resp1 : Response),
     err (m log (DeactivateIdentityProvider (Id d))) = Some e ->
     response (m log (DeactivateIdentityProvider (Id d))) = Some resp1 ->
     StatusCode resp1 <> 404%Z ->
     resourceDeleteAnyIdp d m true log =
     Ret (Some e, (log ++ [DeactivateIdentityProvider (Id d)])%list)) /\
  (forall e : error,
     (err (m log (DeactivateIdentityProvider (Id d))) = None \/
      exists resp1 : Response,
        response (m log (DeactivateIdentityProvider (Id d))) = Some resp1 /\
        StatusCode resp1 = 404%Z) ->
     err (m (log ++ [DeactivateIdentityProvider (Id d)])%list
            (DeleteIdentityProvider (Id d))) = Some e ->
     (forall resp2 : Response,
        response (m (log ++ [DeactivateIdentityProvider (Id d)])%list
                    (DeleteIdentityProvider (Id d))) = Some resp2 ->
        StatusCode resp2 <> 404%Z) ->
     resourceDeleteAnyIdp d m true log =
     Ret (Some e, (log ++ [DeactivateIdentityProvider (Id d);
                           DeleteIdentityProvider (Id d)])%list)).
Proof.
  rewrite resourceDeleteAnyIdp_active_run. cbv zeta.
  unfold deleteStep, suppressErrorOn404, responseErr, StatusNotFound. cbv zeta.
  replace (log ++ [DeactivateIdentityProvider (Id d); DeleteIdentityProvider (Id d)])%list
    with ((log ++ [DeactivateIdentityProvider (Id d)]) ++
          [DeleteIdentityProvider (Id d)])%list
    by (rewrite <- app_assoc; reflexivity).
  repeat split.
  - intros resp1 resp2 H1 S1 H2 S2. rewrite H1, H2, S1, S2. cbn.
    destruct (err (m log _)), (err (m (log ++ _)%list _)); reflexivity.
  - intros e resp1 E1 H1 S1. rewrite E1, H1.
    apply Z.eqb_neq in S1. rewrite S1. reflexivity.
  - intros e Hdeact E2 H2. rewrite E2.
    assert (Hdel : match response (m (log ++ [DeactivateIdentityProvider (Id d)])%list
                                     (DeleteIdentityProvider (Id d))) with
                   | Some r => if (StatusCode r =? 404)%Z then None else Some e
                   | None => Some e
                   end = Some e).
    { destruct (response (m (log ++ [DeactivateIdentityProvider (Id d)])%list
                              (DeleteIdentityProvider (Id d)))) as [resp2|];
        [|reflexivity].
      specialize (H2 resp2 eq_refl). apply Z.eqb_neq in H2. rewrite H2.
      reflexivity. }
    rewrite Hdel.
    destruct Hdeact as [E1 | (resp1 & H1 & S1)].
    + rewrite E1. reflexivity.
    + rewrite H1, S1. cbn. destruct (err (m log _)); reflexivity.
Qed.

Lemma resourceDeleteAnyIdp_tolerates_404_witness :
  response (removedService [] (DeactivateIdentityProvider (Id facebookConfig))) =
    Some {| StatusCode := 404 |} /\
  response (removedService [DeactivateIdentityProvider (Id facebookConfig)]
              (DeleteIdentityProvider (Id facebookConfig))) =
    Some {| StatusCode := 404 |} /\
  resourceDeleteAnyIdp facebookConfig removedService true [] =
    Ret (None, [DeactivateIdentityProvider "0oa1"; DeleteIdentityProvider "0oa1"]) /\
  resourceDeleteAnyIdp facebookConfig failingService true [] =
    Ret (Some "500 Internal Server Error", [DeactivateIdentityProvider "0oa1"]) /\
  resourceDeleteAnyIdp facebookConfig deleteFailingService true [] =
    Ret (Some "500 Internal Server Error",
         [DeactivateIdentityProvider "0oa1"; DeleteIdentityProvider "0oa1"]).
Proof.
  split; [reflexivity|]. split; [reflexivity|]. split; [|split].
  - apply (proj1 (resourceDeleteAnyIdp_tolerates_404 facebookConfig removedService [])
             {| StatusCode := 404 |} {| StatusCode := 404 |});
      reflexivity.
  - apply (proj1 (proj2 (resourceDeleteAnyIdp_tolerates_404 facebookConfig
                           failingService []))
             "500 Internal Server Error" {| StatusCode := 500 |});
      [reflexivity|reflexivity|discriminate].
  - apply (proj2 (proj2 (resourceDeleteAnyIdp_tolerates_404 facebookConfig
                           deleteFailingService []))
             "500 Internal Server Error").
    + right. exists {| StatusCode := 404 |}. split; reflexivity.
    + reflexivity.
    + intros resp2 [= <-]. discriminate.
Defined.

(** C1, on the code. Deleting an active identity provider whose remote
    object is already gone succeeds: a 404 from the deactivation and a 404
    from the deletion are both tolerated. But an error of the deactivation
    that comes without a response is not returned to the caller: the handler
    reads the status code of the nil response and panics. *)
Theorem resourceDeleteAnyIdp_deactivation_lost (d : ResourceData) (m : Client)
    (log : list Call) :
  (forall resp1 resp2 : Response,
     response (m log (DeactivateIdentityProvider (Id d))) = Some resp1 ->
     StatusCode resp1 = 404%Z ->
     response (m (log ++ [DeactivateIdentityProvider (Id d)])%list
                 (DeleteIdentityProvider (Id d))) = Some resp2 ->
     StatusCode resp2 = 404%Z ->
     resourceDeleteAnyIdp d m true log =
     Ret (None, (log ++ [DeactivateIdentityProvider (Id d);
                         DeleteIdentityProvider (Id d)])%list)) /\
  (forall e : error,
     err (m log (DeactivateIdentityProvider (Id d))) = Some e ->
     response (m log (DeactivateIdentityProvider (Id d))) = None ->
     resourceDeleteAnyIdp d m true log = Panic).
Proof.
  split.
  - exact (proj1 (resourceDeleteAnyIdp_tolerates_404 d m log)).
  - intros e He Hresp. rewrite resourceDeleteAnyIdp_active_run. cbv zeta.
    rewrite He, Hresp. reflexivity.
Qed.

Lemma resourceDeleteAnyIdp_deactivation_lost_witness :
  err (deactivationLostService [] (DeactivateIdentityProvider (Id facebookConfig))) =
    Some "dial tcp: connection refused" /\
  response (deactivationLostService []
              (DeactivateIdentityProvider (Id facebookConfig))) = None /\
  resourceDeleteAnyIdp facebookConfig deactivationLostService true [] = Panic /\
  resourceDeleteAnyIdp facebookConfig removedService true [] =
    Ret (None, [DeactivateIdentityProvider "0oa1"; DeleteIdentityProvider "0oa1"]).
Proof.
  split; [reflexivity|]. split; [reflexivity|]. split.
  - apply (proj2 (resourceDeleteAnyIdp_deactivation_lost facebookConfig
                    deactivationLostService [])
             "dial tcp: connection refused"); reflexivity.
  - apply (proj1 (resourceDeleteAnyIdp_deactivation_lost facebookConfig
                    removedService [])
             {| StatusCode := 404 |} {| StatusCode := 404 |}); reflexivity.
Defined.

(** ** Create and update *)

(** C4 as stated fails: the create call is answered 404 with an error, and
    [createIdp] returns no error instead of that one. *)
Lemma createIdp_suppresses_404 :
  err (removedService [] (CreateIdentityProvider (socialIdpPayload facebookConfig))) =
    Some "404 Not Found" /\
  ~ (exists (idp : OIDCIdentityProvider) (log : list Call),
       createIdp removedService (socialIdpPayload facebookConfig) [] =
       Ret ((idp, Some "404 Not Found"), log)).
Proof.
  split; [reflexivity|].
  intros (idp & log & H). rewrite createIdp_run in H. cbn in H. discriminate H.
Qed.

(** C4, as amended. A 404 response is suppressed by [createIdp] and
    [updateIdp] just as it is by [fetchIdp]: each returns no error on it.
    An error that comes with any other response is returned verbatim by
    [createIdp] and [updateIdp]. *)
Theorem createIdp_updateIdp_404 (id : string) (m : Client)
    (idp : OIDCIdentityProvider) (log : list Call) :
  (forall resp : Response,
     response (m log (CreateIdentityProvider idp)) = Some resp ->
     StatusCode resp = 404%Z ->
     createIdp m idp log =
     Ret ((decodeInto idp (m log (CreateIdentityProvider idp)), None),
          (log ++ [CreateIdentityProvider idp])%list)) /\
  (forall resp : Response,
     response (m log (CreateIdentityProvider idp)) = Some resp ->
     StatusCode resp <> 404%Z ->
     createIdp m idp log =
     Ret ((decodeInto idp (m log (CreateIdentityProvider idp)),
           err (m log (CreateIdentityProvider idp))),
          (log ++ [CreateIdentityProvider idp])%list)) /\
  (forall resp : Response,
     response (m log (UpdateIdentityProvider id idp)) = Some resp ->
     StatusCode resp = 404%Z ->
     updateIdp id m idp log =
     Ret ((decodeInto idp (m log (UpdateIdentityProvider id idp)), None),
          (log ++ [UpdateIdentityProvider id idp])%list)) /\
  (forall resp : Response,
     response (m log (UpdateIdentityProvider id idp)) = Some resp ->
     StatusCode resp <> 404%Z ->
     updateIdp id m idp log =
     Ret ((decodeInto idp (m log (UpdateIdentityProvider id idp)),
           err (m log (UpdateIdentityProvider id idp))),
          (log ++ [UpdateIdentityProvider id idp])%list)) /\
  (forall resp : Response,
     response (m log (GetIdentityProvider id)) = Some resp ->
     StatusCode resp = 404%Z ->
     fetchIdp id m idp log =
     Ret ((decodeInto idp (m log (GetIdentityProvider id)), None),
          (log ++ [GetIdentityProvider id])%list)).
Proof.
  rewrite createIdp_run, updateIdp_run, fetchIdp_run. cbv zeta.
  repeat split; intros resp H S; rewrite H.
  all: try (rewrite S; reflexivity).
  all: apply Z.eqb_neq in S; rewrite S; reflexivity.
Qed.

Lemma createIdp_updateIdp_404_witness :
  response (removedService [] (UpdateIdentityProvider "0oa1"
                                 (socialIdpPayload facebookConfig))) =
    Some {| StatusCode := 404 |} /\
  updateIdp "0oa1" removedService (socialIdpPayload facebookConfig) [] =
    Ret ((socialIdpPayload facebookConfig, None),
         [UpdateIdentityProvider "0oa1" (socialIdpPayload facebookConfig)]) /\
  createIdp failingService (socialIdpPayload facebookConfig) [] =
    Ret ((socialIdpPayload facebookConfig, Some "500 Internal Server Error"),
         [CreateIdentityProvider (socialIdpPayload facebookConfig)]).
Proof.
  split; [reflexivity|]. split.
  - apply (proj1 (proj2 (proj2 (createIdp_updateIdp_404 "0oa1" removedService
                                  (socialIdpPayload facebookConfig) [])))
             {| StatusCode := 404 |}); reflexivity.
  - apply (proj1 (proj2 (createIdp_updateIdp_404 "0oa1" failingService
                           (socialIdpPayload facebookConfig) []))
             {| StatusCode := 500 |}); [reflexivity|discriminate].
Defined.

(** ** Create *)

Lemma fieldString_SetId (d : ResourceData) (id key : string) :
  fieldString (SetId d id) key = fieldString d key.
Proof. reflexivity. Qed.

Lemma fieldString_SetPartial (d : ResourceData) (b : bool) (key : string) :
  fieldString (SetPartial d b) key = fieldString d key.
Proof. reflexivity. Qed.

Lemma resourceSocialIdpCreate_run (d : ResourceData) (m : Client) (log : list Call) :
  resourceSocialIdpCreate d m log =
  match createIdp m (socialIdpPayload d) log with
  | Panic => Panic
  | Ret ((idp, Some e), log1) => Ret ((d, Some e), log1)
  | Ret ((idp, None), log1) =>
      match setIdpStatus (ID idp) (Status idp) (fieldString d "status") m log1 with
      | Panic => Panic
      | Ret (Some e, log2) => Ret ((SetId d (ID idp), Some e), log2)
      | Ret (None, log2) => resourceSocialIdpRead (SetId d (ID idp)) m log2
      end
  end.
Proof.
  unfold resourceSocialIdpCreate, bind at 1 2. unfold lift at 1.
  rewrite buildSocialIdp_eq.
  destruct (createIdp m (socialIdpPayload d) log) as [|[[idp [e|]] log1]];
    [reflexivity|reflexivity|].
  cbn [fst snd]. unfold bind at 1. unfold lift at 1.
  rewrite asString_Get by declared. rewrite fieldString_SetId.
  unfold bind at 1.
  destruct (setIdpStatus _ _ _ m log1) as [|[[e|] log2]]; reflexivity.
Qed.

Lemma resourceSocialIdpUpdate_run (d : ResourceData) (m : Client) (log : list Call) :
  resourceSocialIdpUpdate d m log =
  match updateIdp (Id d) m (socialIdpPayload d) log with
  | Panic => Panic
  | Ret ((idp, Some e), log1) => Ret ((SetPartial d true, Some e), log1)
  | Ret ((idp, None), log1) =>
      match setIdpStatus (ID idp) (Status idp) (fieldString d "status") m log1 with
      | Panic => Panic
      | Ret (Some e, log2) => Ret ((SetPartial (SetPartial d true) false, Some e), log2)
      | Ret (None, log2) =>
          resourceSocialIdpRead (SetPartial (SetPartial d true) false) m log2
      end
  end.
Proof.
  unfold resourceSocialIdpUpdate, bind at 1 2. unfold lift at 1.
  rewrite buildSocialIdp_eq. cbv zeta.
  change (Id (SetPartial d true)) with (Id d).
  destruct (updateIdp (Id d) m (socialIdpPayload d) log) as [|[[idp [e|]] log1]];
    [reflexivity|reflexivity|].
  cbn [fst snd]. unfold bind at 1. unfold lift at 1.
  rewrite asString_Get by declared. rewrite !fieldString_SetPartial.
  unfold bind at 1.
  destruct (setIdpStatus _ _ _ m log1) as [|[[e|] log2]]; reflexivity.
Qed.

(** What the status reconciler returns: the error of its call, if it makes
    one. *)
Lemma setIdpStatus_result (id status desiredStatus : string) (m : Client)
    (log : list Call) :
  setIdpStatus id status desiredStatus m log =
  Ret (match statusCalls id status desiredStatus with
       | c :: _ => err (m log c)
       | [] => None
       end, (log ++ statusCalls id status desiredStatus)%list).
Proof.
  unfold setIdpStatus, statusCalls, bind, sdk, ret, getSupplementFromMetadata,
    responseErr.
  destruct (String.eqb status desiredStatus); cbn.
  - rewrite app_nil_r. reflexivity.
  - destruct (String.eqb desiredStatus "INACTIVE"); [reflexivity|].
    destruct (String.eqb desiredStatus "ACTIVE"); [reflexivity|].
    rewrite app_nil_r. reflexivity.
Qed.

(** C7 as stated fails: the create call fails with a 404, and the handler
    neither returns that error nor stops; it sets the empty id, activates
    and fetches it, and returns no error. *)
Lemma resourceSocialIdpCreate_continues_after_404 :
  err (createMissingService []
         (CreateIdentityProvider (socialIdpPayload facebookConfig))) =
    Some "404 Not Found" /\
  (exists d' : ResourceData,
     resourceSocialIdpCreate facebookConfig createMissingService [] =
     Ret ((d', None),
          [CreateIdentityProvider (socialIdpPayload facebookConfig);
           ActivateIdentityProvider ""; GetIdentityProvider ""])) /\
  ~ (exists (d' : ResourceData) (log' : list Call),
       resourceSocialIdpCreate facebookConfig createMissingService [] =
       Ret ((d', Some "404 Not Found"), log')).
Proof.
  split; [reflexivity|].
  destruct (resourceSocialIdpCreate facebookConfig createMissingService [])
    as [|[[d' e] log']] eqn:Hrun; [vm_compute in Hrun; discriminate Hrun|].
  split.
  - exists d'. vm_compute in Hrun. injection Hrun as _ <- <-. reflexivity.
  - intros (d2 & log2 & H). vm_compute in Hrun. injection Hrun as _ <- _.
    discriminate H.
Qed.

(** C7, as amended. With a response to the create call in hand, the create
    handler sends the payload built from the configuration to the create
    endpoint. If the call comes back with an error and a status other than
    404, the handler returns that error with the resource data untouched and
    makes no further call. A create call answered 404 is no failure to the
    handler, which goes on as after a success: it stores the identifier left
    behind the pointer as the resource id and reconciles the returned status
    with the configured one; if the reconciling call comes back with an
    error, the handler returns it and does not read back; otherwise it
    finishes with the read handler on the resource data carrying the new id.
    A create that returns without error has made, in this order, the create
    call, the reconciler's calls and the fetch by the new id, and the
    resource id is the assigned identifier. *)
Theorem resourceSocialIdpCreate_sequence (d : ResourceData) (m : Client)
    (log : list Call) (resp : Response) :
  response (m log (CreateIdentityProvider (socialIdpPayload d))) = Some resp ->
  (StatusCode resp <> 404%Z ->
   forall e : error,
     err (m log (CreateIdentityProvider (socialIdpPayload d))) = Some e ->
     resourceSocialIdpCreate d m log =
     Ret ((d, Some e),
          (log ++ [CreateIdentityProvider (socialIdpPayload d)])%list)) /\
  (StatusCode resp = 404%Z \/
   err (m log (CreateIdentityProvider (socialIdpPayload d))) = None ->
   (forall (c : Call) (e : error),
      statusCalls
        (ID (decodeInto (socialIdpPayload d)
               (m log (CreateIdentityProvider (socialIdpPayload d)))))
        (Status (decodeInto (socialIdpPayload d)
                   (m log (CreateIdentityProvider (socialIdpPayload d)))))
        (fieldString d "status") = [c] ->
      err (m (log ++ [CreateIdentityProvider (socialIdpPayload d)])%list c) =
        Some e ->
      resourceSocialIdpCreate d m log =
      Ret ((SetId d (ID (decodeInto (socialIdpPayload d)
                           (m log (CreateIdentityProvider (socialIdpPayload d))))),
            Some e),
           (log ++ [CreateIdentityProvider (socialIdpPayload d); c])%list)) /\
   ((forall c : Call,
       statusCalls
         (ID (decodeInto (socialIdpPayload d)
                (m log (CreateIdentityProvider (socialIdpPayload d)))))
         (Status (decodeInto (socialIdpPayload d)
                    (m log (CreateIdentityProvider (socialIdpPayload d)))))
         (fieldString d "status") = [c] ->
       err (m (log ++ [CreateIdentityProvider (socialIdpPayload d)])%list c) =
         None) ->
    resourceSocialIdpCreate d m log =
    resourceSocialIdpRead
      (SetId d (ID (decodeInto (socialIdpPayload d)
                      (m log (CreateIdentityProvider (socialIdpPayload d))))))
      m
      (log ++ [CreateIdentityProvider (socialIdpPayload d)]
           ++ statusCalls
                (ID (decodeInto (socialIdpPayload d)
                       (m log (CreateIdentityProvider (socialIdpPayload d)))))
                (Status (decodeInto (socialIdpPayload d)
                           (m log (CreateIdentityProvider (socialIdpPayload d)))))
                (fieldString d "status"))%list)) /\
  (forall (d' : ResourceData) (log' : list Call),
     resourceSocialIdpCreate d m log = Ret ((d', None), log') ->
     log' = (log ++ [CreateIdentityProvider (socialIdpPayload d)]
                 ++ statusCalls
                      (ID (decodeInto (socialIdpPayload d)
                             (m log (CreateIdentityProvider (socialIdpPayload d)))))
                      (Status (decodeInto (socialIdpPayload d)
                                 (m log (CreateIdentityProvider
                                           (socialIdpPayload d)))))
                      (fieldString d "status")
                 ++ [GetIdentityProvider
                       (ID (decodeInto (socialIdpPayload d)
                              (m log (CreateIdentityProvider
                                        (socialIdpPayload d)))))])%list /\
     Id d' = ID (decodeInto (socialIdpPayload d)
                   (m log (CreateIdentityProvider (socialIdpPayload d))))).
Proof.
  intros Hresp.
  rewrite resourceSocialIdpCreate_run, createIdp_run. cbv zeta. rewrite Hresp.
  set (rc := m log (CreateIdentityProvider (socialIdpPayload d))).
  set (idp := decodeInto (socialIdpPayload d) rc).
  set (log1 := (log ++ [CreateIdentityProvider (socialIdpPayload d)])%list).
  rewrite setIdpStatus_result.
  set (calls := statusCalls (ID idp) (Status idp) (fieldString d "status")).
  split; [|split].
  - intros Hstatus e He. apply Z.eqb_neq in Hstatus. rewrite Hstatus, He.
    reflexivity.
  - intros Hok.
    assert (Hnone : (if (StatusCode resp =? 404)%Z then None else err rc) = None).
    { destruct Hok as [-> | ->]; [reflexivity|].
      destruct (StatusCode resp =? 404)%Z; reflexivity. }
    rewrite Hnone. split.
    + intros c e Hc He. rewrite Hc, He.
      unfold log1. rewrite <- app_assoc. reflexivity.
    + intros Hall. destruct calls as [|c rest] eqn:Hcalls.
      * rewrite app_nil_r. unfold log1. reflexivity.
      * assert (Hrest : rest = []).
        { unfold calls, statusCalls in Hcalls.
          destruct (String.eqb (Status idp) (fieldString d "status"));
            [discriminate|].
          destruct (String.eqb (fieldString d "status") "INACTIVE");
            [injection Hcalls as _ <-; reflexivity|].
          destruct (String.eqb (fieldString d "status") "ACTIVE");
            [injection Hcalls as _ <-; reflexivity|discriminate]. }
        subst rest. rewrite (Hall c eq_refl).
        unfold log1. rewrite <- app_assoc. reflexivity.
  - intros d' log'.
    destruct (if (StatusCode resp =? 404)%Z then None else err rc) as [e|];
      [discriminate|].
    destruct (match calls with c :: _ => err (m log1 c) | [] => None end) as [e|];
      [discriminate|].
    intros Hr. apply resourceSocialIdpRead_returns in Hr as [-> Hid].
    split; [|exact Hid].
    unfold log1. rewrite <- !app_assoc. reflexivity.
Qed.

Lemma resourceSocialIdpCreate_sequence_witness :
  response (failingService []
              (CreateIdentityProvider (socialIdpPayload facebookConfig))) =
    Some {| StatusCode := 500 |} /\
  resourceSocialIdpCreate facebookConfig failingService [] =
    Ret ((facebookConfig, Some "500 Internal Server Error"),
         [CreateIdentityProvider (socialIdpPayload facebookConfig)]) /\
  resourceSocialIdpCreate facebookConfig removedService [] =
    Ret ((SetId facebookConfig "", Some "404 Not Found"),
         [CreateIdentityProvider (socialIdpPayload facebookConfig);
          ActivateIdentityProvider ""]) /\
  (exists (d' : ResourceData) (log' : list Call),
     resourceSocialIdpCreate facebookConfig healthyService [] =
       Ret ((d', None), log') /\
     log' = [CreateIdentityProvider (socialIdpPayload facebookConfig);
             GetIdentityProvider "0oa1"] /\
     Id d' = "0oa1").
Proof.
  split; [reflexivity|]. split; [|split].
  - apply (proj1 (resourceSocialIdpCreate_sequence facebookConfig failingService []
                    {| StatusCode := 500 |} eq_refl));
      [discriminate|reflexivity].
  - apply (proj1 (proj1 (proj2 (resourceSocialIdpCreate_sequence facebookConfig
                                  removedService [] {| StatusCode := 404 |}
                                  eq_refl))
                    (or_introl eq_refl))
             (ActivateIdentityProvider "") "404 Not Found");
      reflexivity.
  - destruct (resourceSocialIdpCreate facebookConfig healthyService [])
      as [|[[d' [e|]] log']] eqn:Hrun; try (vm_compute in Hrun; discriminate Hrun).
    exists d', log'. split; [reflexivity|].
    destruct (proj2 (proj2 (resourceSocialIdpCreate_sequence facebookConfig
                              healthyService [] {| StatusCode := 200 |} eq_refl))
                d' log' Hrun) as [-> ->].
    split; reflexivity.
Defined.

(** ** Read of a removed object *)

(** C2, on the code. The fetch of a removed object (answered 404, nothing
    decoded) returns no error and leaves the caller's object at its zero
    value; the read handler then goes on to flatten that object and panics on
    its nil policy instead of reporting the resource as absent. *)
Theorem resourceSocialIdpRead_removed (d : ResourceData) (log : list Call) :
  fetchIdp (Id d) removedService emptyOIDCIdentityProvider log =
    Ret ((emptyOIDCIdentityProvider, None),
         (log ++ [GetIdentityProvider (Id d)])%list) /\
  resourceSocialIdpRead d removedService log = Panic.
Proof.
  split.
  - rewrite fetchIdp_run. reflexivity.
  - unfold resourceSocialIdpRead, bind. rewrite fetchIdp_run. reflexivity.
Qed.

(** ** Calls that receive no response *)

(** C8, on the code. When the SDK call fails without an HTTP response, the
    read, create, update and exists handlers, and the delete handler of an
    active identity provider, read the status code of the nil response and
    panic; none of them returns the error. *)
Theorem handlers_panic_without_response (T : Type) (idp : T)
    (d : ResourceData) (log : list Call) :
  resourceSocialIdpRead d unreachableService log = Panic /\
  resourceSocialIdpCreate d unreachableService log = Panic /\
  resourceSocialIdpUpdate d unreachableService log = Panic /\
  resourceDeleteAnyIdp d unreachableService true log = Panic /\
  getIdentityProviderExists idp d unreachableService log = Panic.
Proof.
  split; [|split; [|split; [|split]]].
  - unfold resourceSocialIdpRead, bind. rewrite fetchIdp_run. reflexivity.
  - rewrite resourceSocialIdpCreate_run, createIdp_run. reflexivity.
  - rewrite resourceSocialIdpUpdate_run, updateIdp_run. reflexivity.
  - rewrite resourceDeleteAnyIdp_active_run. reflexivity.
  - reflexivity.
Qed.

(** * Further properties of the handlers and builders *)

(** ** Reading after [d.Set] *)

Lemma GetField_sameBut (keys : list string) (d d' : ResourceData) (field : string) :
  sameBut keys d d' -> ~ In field keys -> GetField d' field = GetField d field.
Proof.
  intros (_ & _ & Hl & Hf) Hnin. unfold GetField.
  rewrite (Hf field Hnin), Hl. reflexivity.
Qed.

Lemma Get_sameBut (keys : list string) (d d' : ResourceData) (key : string) :
  sameBut keys d d' -> ~ In (fieldName key) keys -> Get d' key = Get d key.
Proof.
  intros Hs. unfold fieldName, Get.
  destruct (splitDot key) as [|field [|part [|more rest]]]; cbn [hd];
    intros Hnin; try reflexivity.
  - apply (GetField_sameBut keys), Hnin. exact Hs.
  - rewrite (GetField_sameBut keys d d' field Hs Hnin). reflexivity.
Qed.

Lemma Get_stored_ne (d : ResourceData) (key key' : string) (v : Value) :
  fieldName key <> key' -> Get (stored d key' v) key = Get d key.
Proof.
  intros Hne. apply (Get_sameBut [key']); [apply sameBut_stored|].
  intros [Heq|[]]. apply Hne. symmetry. exact Heq.
Qed.

Lemma Get_stored_eq (d : ResourceData) (key : string) (v : Value) (t : ValueType) :
  declaredType key = Some t -> hasType v t = true ->
  Get (stored d key v) key = v.
Proof.
  intros Ht Hv. rewrite (Get_declared_field _ key t Ht).
  revert Ht. unfold declaredType, GetField, stored.
  destruct (resourceSocialIdpSchema !! key) as [sch|]; [|discriminate].
  cbn. intros [= <-]. rewrite lookup_insert_eq, Hv. reflexivity.
Qed.



(** The frame is about fields: an address below a field the handler sets,
    such as the count of the scopes, is not a key of [readKeys] and yet
    reads differently after the handler has run. *)
Lemma resourceSocialIdpRead_rewrites_addresses :
  ~ In "scopes.#" readKeys /\
  Get twoScopesConfig "scopes.#" = VInt 2 /\
  exists (d' : ResourceData) (log' : list Call),
    resourceSocialIdpRead twoScopesConfig healthyService [] =
      Ret ((d', None), log') /\
    Get d' "scopes.#" = VInt 1.
Proof.
  split.
  { unfold readKeys, In. intros H.
    repeat (destruct H as [H|H]; [discriminate H|]). exact H. }
  split; [vm_compute; reflexivity|].
  destruct (resourceSocialIdpRead twoScopesConfig healthyService [])
    as [|[[d' [e|]] log']] eqn:Hrun; try (vm_compute in Hrun; discriminate Hrun).
  exists d', log'. split; [reflexivity|].
  vm_compute in Hrun. injection Hrun as <- _. vm_compute. reflexivity.
Qed.

(** X2. The read handler returns without error only if the object the fetch
    left behind the pointer has every nested pointer the handler selects
    through: policy, provisioning, conditions, groups, subject, username
    template, protocol, credentials and client. *)
Theorem resourceSocialIdpRead_needs_full_object (d d' : ResourceData) (m : Client)
    (log log' : list Call) :
  resourceSocialIdpRead d m log = Ret ((d', None), log') ->
  exists policy provisioning conditions groups subject template protocol
         credentials client,
    Policy (decodeInto emptyOIDCIdentityProvider
              (m log (GetIdentityProvider (Id d)))) = Some policy /\
    Provisioning policy = Some provisioning /\
    Conditions provisioning = Some conditions /\
    Provisioning_Groups provisioning = Some groups /\
    Subject policy = Some subject /\
    UserNameTemplate subject = Some template /\
    Protocol (decodeInto emptyOIDCIdentityProvider
                (m log (GetIdentityProvider (Id d)))) = Some protocol /\
    Credentials protocol = Some credentials /\
    Client_ credentials = Some client.
Proof.
  rewrite resourceSocialIdpRead_run. cbv zeta.
  destruct (response (m log (GetIdentityProvider (Id d)))) as [resp|];
    [|discriminate].
  destruct (if (StatusCode resp =? 404)%Z then None else _) as [e0|];
    [discriminate|].
  unfold socialIdpParts.
  destruct (Policy _) as [policy|] eqn:H1; [|discriminate].
  destruct (Provisioning policy) as [provisioning|] eqn:H2; [|discriminate].
  destruct (Conditions provisioning) as [conditions|] eqn:H3; [|discriminate].
  destruct (Provisioning_Groups provisioning) as [groups|] eqn:H4; [|discriminate].
  destruct (Subject policy) as [subject|] eqn:H5; [|discriminate].
  destruct (UserNameTemplate subject) as [template|] eqn:H6; [|discriminate].
  destruct (Protocol _) as [protocol|] eqn:H7; [|discriminate].
  destruct (Credentials protocol) as [credentials|] eqn:H8; [|discriminate].
  destruct (Client_ credentials) as [client|] eqn:H9; [|discriminate].
  intros _. exists policy, provisioning, conditions, groups, subject, template,
    protocol, credentials, client.
  repeat split; assumption.
Qed.

Lemma resourceSocialIdpRead_needs_full_object_witness :
  exists (d' : ResourceData) (log' : list Call) (client : OIDCClient),
    resourceSocialIdpRead facebookConfig healthyService [] = Ret ((d', None), log') /\
    ClientID client = "abc".
Proof.
  destruct (resourceSocialIdpRead facebookConfig healthyService [])
    as [|[[d' [e|]] log']] eqn:Hrun; try (vm_compute in Hrun; discriminate Hrun).
  destruct (resourceSocialIdpRead_needs_full_object facebookConfig d'
              healthyService [] log' Hrun)
    as (policy & provisioning & conditions & groups & subject & template &
        protocol & credentials & client & Hp & _ & _ & _ & _ & _ & Hpr & Hc & Hcl).
  exists d', log', client. split; [reflexivity|].
  vm_compute in Hpr. injection Hpr as <-.
  vm_compute in Hc. injection Hc as <-.
  vm_compute in Hcl. injection Hcl as <-. reflexivity.
Defined.

Ltac get_set ty :=
  rewrite ?Get_stored_ne by (cbv; discriminate);
  rewrite Get_stored_eq with (t := ty) by declared;
  reflexivity.

(** X3. When the fetch succeeds with a fully populated object that carries no
    account link, the read handler returns without error after the one fetch,
    and the resource data then holds the remote name, max_clock_skew,
    provisioning action, profile_master, groups action, subject match type,
    username template, client id, client secret and scopes. *)
Theorem resourceSocialIdpRead_flattens (d : ResourceData) (m : Client)
    (log : list Call) (resp : Response) (idp : OIDCIdentityProvider)
    (policy : OIDCPolicy) (provisioning : IDPProvisioning)
    (conditions : IDPConditions) (groups : IDPAction) (subject : OIDCSubject)
    (template : ApplicationCredentialsUsernameTemplate) (protocol : OIDCProtocol)
    (credentials : OIDCCredentials) (client : OIDCClient) :
  response (m log (GetIdentityProvider (Id d))) = Some resp ->
  StatusCode resp <> 404%Z ->
  err (m log (GetIdentityProvider (Id d))) = None ->
  decoded (m log (GetIdentityProvider (Id d))) = Some idp ->
  Policy idp = Some policy ->
  Provisioning policy = Some provisioning ->
  Conditions provisioning = Some conditions ->
  Provisioning_Groups provisioning = Some groups ->
  Subject policy = Some subject ->
  UserNameTemplate subject = Some template ->
  Protocol idp = Some protocol ->
  Credentials protocol = Some credentials ->
  Client_ credentials = Some client ->
  Policy_AccountLink policy = None ->
  exists d' : ResourceData,
    resourceSocialIdpRead d m log =
      Ret ((d', None), (log ++ [GetIdentityProvider (Id d)])%list) /\
    Get d' "name" = VString (Name idp) /\
    Get d' "max_clock_skew" = VInt (MaxClockSkew policy) /\
    Get d' "provisioning_action" = VString (Provisioning_Action provisioning) /\
    Get d' "profile_master" = VBool (ProfileMaster provisioning) /\
    Get d' "groups_action" = VString (IDPAction_Action groups) /\
    Get d' "subject_match_type" = VString (MatchType subject) /\
    Get d' "username_template" = VString (Template template) /\
    Get d' "client_id" = VString (ClientID client) /\
    Get d' "client_secret" = VString (ClientSecret client) /\
    Get d' "scopes" = VSet (Scopes protocol).
Proof.
  intros Hresp Hstatus Herr Hdec H1 H2 H3 H4 H5 H6 H7 H8 H9 Hlink.
  rewrite resourceSocialIdpRead_run. cbv zeta.
  rewrite Hresp, Herr. apply Z.eqb_neq in Hstatus. rewrite Hstatus.
  unfold decodeInto. rewrite Hdec.
  unfold socialIdpParts. rewrite H1, H2, H3, H4, H5, H6, H7, H8, H9.
  unfold flattened. cbn [part_policy part_provisioning part_conditions part_groups
                        part_subject part_template part_protocol part_credentials
                        part_client].
  rewrite Hlink. unfold obind.
  repeat run_set.
  destruct (negb (String.eqb (IssuerMode idp) "")); repeat run_set.
  all: destruct (Deprovisioned conditions), (Suspended conditions).
  all: eexists; (split; [reflexivity|]); repeat split.
  all: first [ get_set TypeString | get_set TypeInt | get_set TypeBool
             | get_set TypeSet ].
Qed.

Lemma resourceSocialIdpRead_flattens_witness :
  exists d' : ResourceData,
    resourceSocialIdpRead facebookConfigInactive healthyService [] =
      Ret ((d', None), [GetIdentityProvider "0oa2"]) /\
    Get d' "client_secret" = VString "s3cret" /\
    Get d' "scopes" = VSet ["email"].
Proof.
  edestruct (resourceSocialIdpRead_flattens facebookConfigInactive healthyService
               [] {| StatusCode := 200 |})
    as (d' & Hrun & _ & _ & _ & _ & _ & _ & _ & _ & Hsecret & Hscopes);
    [reflexivity | discriminate | reflexivity | reflexivity | reflexivity
    | reflexivity | reflexivity | reflexivity | reflexivity | reflexivity
    | reflexivity | reflexivity | reflexivity | reflexivity |].
  exists d'. split; [exact Hrun|]. split; [exact Hsecret|exact Hscopes].
Defined.

(** X4. When the fetch is answered with an error and a response other than
    404, the read handler returns that error after the one fetch and hands the
    resource data back exactly as it received it. *)
Theorem resourceSocialIdpRead_fetch_error (d : ResourceData) (m : Client)
    (log : list Call) (resp : Response) (e : error) :
  response (m log (GetIdentityProvider (Id d))) = Some resp ->
  StatusCode resp <> 404%Z ->
  err (m log (GetIdentityProvider (Id d))) = Some e ->
  resourceSocialIdpRead d m log =
  Ret ((d, Some e), (log ++ [GetIdentityProvider (Id d)])%list).
Proof.
  intros Hresp Hstatus Herr.
  rewrite resourceSocialIdpRead_run. cbv zeta.
  rewrite Hresp, Herr. apply Z.eqb_neq in Hstatus. rewrite Hstatus. reflexivity.
Qed.

Lemma resourceSocialIdpRead_fetch_error_witness :
  response (failingService [] (GetIdentityProvider (Id facebookConfig))) =
    Some {| StatusCode := 500 |} /\
  resourceSocialIdpRead facebookConfig failingService [] =
  Ret ((facebookConfig, Some "500 Internal Server Error"),
       [GetIdentityProvider "0oa1"]).
Proof.
  split; [reflexivity|].
  apply (resourceSocialIdpRead_fetch_error facebookConfig failingService []
           {| StatusCode := 500 |} "500 Internal Server Error");
    [reflexivity|discriminate|reflexivity].
Defined.

(** ** The update handler *)

(** X5. Whenever the update handler returns, the resource id is unchanged and
    its calls are the update of that id with the payload built from the
    configuration, followed, if the update step returned no error, by the
    reconciler's calls for the id and status of the object the update left
    behind the pointer and then, if those returned no error, by the fetch of
    the resource id. If the update step returned an error the resource data
    is still in partial mode; otherwise partial mode is off. *)
Theorem resourceSocialIdpUpdate_steps (d d' : ResourceData) (m : Client)
    (e : option error) (log log' : list Call) :
  resourceSocialIdpUpdate d m log = Ret ((d', e), log') ->
  Id d' = Id d /\
  ((e <> None /\ rd_partial d' = true /\
    log' = (log ++ [UpdateIdentityProvider (Id d) (socialIdpPayload d)])%list) \/
   (rd_partial d' = false /\
    exists rest : list Call,
      (rest = [] /\ e <> None \/ rest = [GetIdentityProvider (Id d)]) /\
      log' = (log ++ [UpdateIdentityProvider (Id d) (socialIdpPayload d)]
                  ++ statusCalls
                       (ID (decodeInto (socialIdpPayload d)
                              (m log (UpdateIdentityProvider (Id d)
                                        (socialIdpPayload d)))))
                       (Status (decodeInto (socialIdpPayload d)
                                  (m log (UpdateIdentityProvider (Id d)
                                            (socialIdpPayload d)))))
                       (fieldString d "status")
                  ++ rest)%list)).
Proof.
  rewrite resourceSocialIdpUpdate_run, updateIdp_run. cbv zeta.
  destruct (response (m log (UpdateIdentityProvider (Id d) (socialIdpPayload d))))
    as [resp|]; [|discriminate].
  set (idp := decodeInto (socialIdpPayload d)
                (m log (UpdateIdentityProvider (Id d) (socialIdpPayload d)))).
  destruct (if (StatusCode resp =? 404)%Z then None else _) as [e1|].
  { intros [= <- <- <-]. split; [reflexivity|]. left.
    split; [discriminate|]. split; reflexivity. }
  destruct (setIdpStatus_run (ID idp) (Status idp) (fieldString d "status") m
              (log ++ [UpdateIdentityProvider (Id d) (socialIdpPayload d)])%list)
    as [e2 Hs].
  rewrite Hs. destruct e2 as [e2|].
  { intros [= <- <- <-]. split; [reflexivity|]. right.
    split; [reflexivity|]. exists []. split; [left; split; [reflexivity|discriminate]|].
    rewrite app_nil_r, <- app_assoc. reflexivity. }
  intros Hr.
  pose proof (resourceSocialIdpRead_partial _ _ _ _ _ _ Hr) as Hp.
  apply resourceSocialIdpRead_returns in Hr as [-> Hid].
  split; [exact Hid|]. right. split; [exact Hp|].
  exists [GetIdentityProvider (Id d)]. split; [right; reflexivity|].
  rewrite <- !app_assoc. reflexivity.
Qed.

Lemma resourceSocialIdpUpdate_steps_witness :
  (exists log' : list Call,
     resourceSocialIdpUpdate facebookConfig failingService [] =
       Ret ((SetPartial facebookConfig true, Some "500 Internal Server Error"), log') /\
     log' = [UpdateIdentityProvider "0oa1" (socialIdpPayload facebookConfig)]) /\
  (exists (d' : ResourceData) (log' : list Call),
     resourceSocialIdpUpdate facebookConfig inactiveService [] =
       Ret ((d', None), log') /\
     rd_partial d' = false /\
     log' = [UpdateIdentityProvider "0oa1" (socialIdpPayload facebookConfig);
             ActivateIdentityProvider "0oa1"; GetIdentityProvider "0oa1"]).
Proof.
  split.
  - destruct (resourceSocialIdpUpdate facebookConfig failingService [])
      as [|[[d' e] log']] eqn:Hrun; [vm_compute in Hrun; discriminate Hrun|].
    destruct (resourceSocialIdpUpdate_steps _ _ _ _ _ _ Hrun)
      as (_ & [(_ & _ & Hlog) | (Hp & _)]).
    + exists log'. split; [|exact Hlog].
      vm_compute in Hrun. injection Hrun as <- <- _. reflexivity.
    + vm_compute in Hrun. injection Hrun as <- _ _. discriminate Hp.
  - destruct (resourceSocialIdpUpdate facebookConfig inactiveService [])
      as [|[[d' [e|]] log']] eqn:Hrun; try (vm_compute in Hrun; discriminate Hrun).
    destruct (resourceSocialIdpUpdate_steps _ _ _ _ _ _ Hrun)
      as (_ & [(He & _) | (Hp & rest & [(_ & He) | ->] & ->)]);
      try (exfalso; apply He; reflexivity).
    exists d', ([] ++ [UpdateIdentityProvider (Id facebookConfig)
                         (socialIdpPayload facebookConfig)]
                   ++ statusCalls "0oa1" "INACTIVE" "ACTIVE"
                   ++ [GetIdentityProvider (Id facebookConfig)])%list.
    split; [reflexivity|]. split; [exact Hp|reflexivity].
Defined.

(** ** The create handler after a suppressed 404 *)

(** X6. When the create call is answered 404 and nothing is decoded, the
    create handler does not stop: whenever it returns, the resource id is the
    empty string, and after the create call it has made the reconciler's
    calls for the empty id and the empty current status and, if those
    returned no error, the fetch of the empty id. *)
Theorem resourceSocialIdpCreate_after_404 (d d' : ResourceData) (m : Client)
    (e : option error) (log log' : list Call) (resp : Response) :
  response (m log (CreateIdentityProvider (socialIdpPayload d))) = Some resp ->
  StatusCode resp = 404%Z ->
  decoded (m log (CreateIdentityProvider (socialIdpPayload d))) = None ->
  resourceSocialIdpCreate d m log = Ret ((d', e), log') ->
  Id d' = "" /\
  exists rest : list Call,
    (rest = [] /\ e <> None \/ rest = [GetIdentityProvider ""]) /\
    log' = (log ++ [CreateIdentityProvider (socialIdpPayload d)]
                ++ statusCalls "" "" (fieldString d "status")
                ++ rest)%list.
Proof.
  intros Hresp Hstatus Hdec.
  rewrite resourceSocialIdpCreate_run, createIdp_run. cbv zeta.
  rewrite Hresp, Hstatus. unfold decodeInto. rewrite Hdec.
  change (ID (socialIdpPayload d)) with "".
  change (Status (socialIdpPayload d)) with "".
  cbn [Z.eqb Pos.eqb].
  destruct (setIdpStatus_run "" "" (fieldString d "status") m
              (log ++ [CreateIdentityProvider (socialIdpPayload d)])%list)
    as [e2 Hs].
  rewrite Hs. destruct e2 as [e2|].
  { intros [= <- <- <-]. split; [reflexivity|].
    exists []. split; [left; split; [reflexivity|discriminate]|].
    rewrite app_nil_r, <- app_assoc. reflexivity. }
  intros Hr. apply resourceSocialIdpRead_returns in Hr as [-> Hid].
  split; [exact Hid|].
  exists [GetIdentityProvider ""]. split; [right; reflexivity|].
  rewrite <- !app_assoc. reflexivity.
Qed.

Lemma resourceSocialIdpCreate_after_404_witness :
  response (removedService [] (CreateIdentityProvider
                                 (socialIdpPayload facebookConfig))) =
    Some {| StatusCode := 404 |} /\
  exists (d' : ResourceData) (log' : list Call),
    resourceSocialIdpCreate facebookConfig removedService [] =
      Ret ((d', Some "404 Not Found"), log') /\
    Id d' = "" /\
    log' = [CreateIdentityProvider (socialIdpPayload facebookConfig);
            ActivateIdentityProvider ""].
Proof.
  split; [reflexivity|].
  destruct (resourceSocialIdpCreate facebookConfig removedService [])
    as [|[[d' [e|]] log']] eqn:Hrun; try (vm_compute in Hrun; discriminate Hrun).
  destruct (resourceSocialIdpCreate_after_404 facebookConfig d' removedService
              (Some e) [] log' {| StatusCode := 404 |}
              eq_refl eq_refl eq_refl Hrun)
    as (Hid & rest & [(-> & _) | ->] & ->).
  - exists d', ([] ++ [CreateIdentityProvider (socialIdpPayload facebookConfig)]
                   ++ statusCalls "" "" "ACTIVE" ++ [])%list.
    split; [|split; [exact Hid|reflexivity]].
    vm_compute in Hrun. injection Hrun as _ <-. reflexivity.
  - vm_compute in Hrun. discriminate Hrun.
Defined.

(** ** More on delete *)

(** X7. The delete handler reports success only after it has issued the
    delete call: whenever it returns no error, its calls are the deactivation
    (for an active identity provider only) followed by the deletion, both of
    the resource id. *)
Theorem resourceDeleteAnyIdp_success_calls (d : ResourceData) (m : Client)
    (active : bool) (log log' : list Call) :
  resourceDeleteAnyIdp d m active log = Ret (None, log') ->
  log' = (log ++ (if active then [DeactivateIdentityProvider (Id d)] else [])
              ++ [DeleteIdentityProvider (Id d)])%list.
Proof.
  destruct active.
  - rewrite resourceDeleteAnyIdp_active_run. cbv zeta. unfold deleteStep.
    rewrite <- app_assoc.
    destruct (err (m log (DeactivateIdentityProvider (Id d)))) as [e1|].
    + destruct (response (m log (DeactivateIdentityProvider (Id d)))) as [resp|];
        [|discriminate].
      destruct (StatusCode resp =? 404)%Z; [|discriminate].
      intros [= _ <-]. reflexivity.
    + intros [= _ <-]. reflexivity.
  - rewrite resourceDeleteAnyIdp_inactive_run. unfold deleteStep.
    intros [= _ <-]. reflexivity.
Qed.

Lemma resourceDeleteAnyIdp_success_calls_witness :
  resourceDeleteAnyIdp facebookConfig healthyService true [] =
    Ret (None, [DeactivateIdentityProvider "0oa1"; DeleteIdentityProvider "0oa1"]) /\
  [DeactivateIdentityProvider "0oa1"; DeleteIdentityProvider "0oa1"] =
    ([] ++ [DeactivateIdentityProvider (Id facebookConfig)]
        ++ [DeleteIdentityProvider (Id facebookConfig)])%list.
Proof.
  split; [reflexivity|].
  apply (resourceDeleteAnyIdp_success_calls facebookConfig healthyService true []).
  reflexivity.
Defined.

(** X8. The delete handler looks at a response only when the call's error is
    not nil: when the deactivation (if any) and the deletion both come back
    without error, it returns no error after those calls, even if no
    response object came back with them. *)
Theorem resourceDeleteAnyIdp_no_error (d : ResourceData) (m : Client)
    (log : list Call) :
  (err (m log (DeactivateIdentityProvider (Id d))) = None ->
   err (m (log ++ [DeactivateIdentityProvider (Id d)])%list
          (DeleteIdentityProvider (Id d))) = None ->
   resourceDeleteAnyIdp d m true log =
   Ret (None, (log ++ [DeactivateIdentityProvider (Id d);
                       DeleteIdentityProvider (Id d)])%list)) /\
  (err (m log (DeleteIdentityProvider (Id d))) = None ->
   resourceDeleteAnyIdp d m false log =
   Ret (None, (log ++ [DeleteIdentityProvider (Id d)])%list)).
Proof.
  split.
  - intros E1 E2. rewrite resourceDeleteAnyIdp_active_run. cbv zeta.
    unfold deleteStep. rewrite E1, E2, <- app_assoc. reflexivity.
  - intros E. rewrite resourceDeleteAnyIdp_inactive_run. unfold deleteStep.
    rewrite E. reflexivity.
Qed.

Lemma resourceDeleteAnyIdp_no_error_witness :
  response (silentService [] (DeactivateIdentityProvider (Id facebookConfig))) = None /\
  resourceDeleteAnyIdp facebookConfig silentService true [] =
    Ret (None, [DeactivateIdentityProvider "0oa1"; DeleteIdentityProvider "0oa1"]) /\
  resourceDeleteAnyIdp facebookConfig silentService false [] =
    Ret (None, [DeleteIdentityProvider "0oa1"]).
Proof.
  split; [reflexivity|]. split.
  - apply (proj1 (resourceDeleteAnyIdp_no_error facebookConfig silentService []));
      reflexivity.
  - apply (proj2 (resourceDeleteAnyIdp_no_error facebookConfig silentService []));
      reflexivity.
Defined.

(** X9. Deleting an identity provider that is not active makes the delete
    call and no other: with a response in hand the handler returns no error
    if the status is 404 and the SDK's error otherwise. *)
Theorem resourceDeleteAnyIdp_inactive (d : ResourceData) (m : Client)
    (log : list Call) (resp : Response) :
  response (m log (DeleteIdentityProvider (Id d))) = Some resp ->
  resourceDeleteAnyIdp d m false log =
  Ret ((if (StatusCode resp =? 404)%Z then None
        else err (m log (DeleteIdentityProvider (Id d)))),
       (log ++ [DeleteIdentityProvider (Id d)])%list).
Proof.
  intros Hresp. rewrite resourceDeleteAnyIdp_inactive_run.
  unfold deleteStep, suppressErrorOn404, responseErr, StatusNotFound. cbv zeta.
  rewrite Hresp.
  destruct (err (m log (DeleteIdentityProvider (Id d)))) as [e|];
    destruct (StatusCode resp =? 404)%Z; reflexivity.
Qed.

Lemma resourceDeleteAnyIdp_inactive_witness :
  response (removedService [] (DeleteIdentityProvider (Id facebookConfig))) =
    Some {| StatusCode := 404 |} /\
  resourceDeleteAnyIdp facebookConfig removedService false [] =
    Ret (None, [DeleteIdentityProvider "0oa1"]) /\
  resourceDeleteAnyIdp facebookConfig failingService false [] =
    Ret (Some "500 Internal Server Error", [DeleteIdentityProvider "0oa1"]).
Proof.
  split; [reflexivity|]. split.
  - apply (resourceDeleteAnyIdp_inactive facebookConfig removedService []
             {| StatusCode := 404 |}). reflexivity.
  - apply (resourceDeleteAnyIdp_inactive facebookConfig failingService []
             {| StatusCode := 500 |}). reflexivity.
Defined.

(** X10. The delete handler registered for the resource decides from the
    stored status alone: whenever it returns, a status other than "ACTIVE"
    means its only call was the deletion, and the status "ACTIVE" means its
    first call was the deactivation, followed by at most the deletion. *)
Theorem resourceIdpDelete_calls (d : ResourceData) (m : Client)
    (e : option error) (log log' : list Call) :
  resourceIdpDelete d m log = Ret (e, log') ->
  (fieldString d "status" <> "ACTIVE" ->
     log' = (log ++ [DeleteIdentityProvider (Id d)])%list) /\
  (fieldString d "status" = "ACTIVE" ->
     log' = (log ++ [DeactivateIdentityProvider (Id d)])%list \/
     log' = (log ++ [DeactivateIdentityProvider (Id d);
                     DeleteIdentityProvider (Id d)])%list).
Proof.
  rewrite resourceIdpDelete_eq. intros Hrun. split.
  - intros Hne. apply String.eqb_neq in Hne. rewrite Hne in Hrun.
    rewrite resourceDeleteAnyIdp_inactive_run in Hrun. unfold deleteStep in Hrun.
    injection Hrun as _ <-. reflexivity.
  - intros Heq. rewrite Heq in Hrun. cbn [String.eqb Ascii.eqb Bool.eqb] in Hrun.
    rewrite resourceDeleteAnyIdp_active_run in Hrun. cbv zeta in Hrun.
    unfold deleteStep in Hrun. rewrite <- app_assoc in Hrun.
    destruct (err (m log (DeactivateIdentityProvider (Id d)))) as [e1|].
    + destruct (response (m log (DeactivateIdentityProvider (Id d)))) as [resp|];
        [|discriminate Hrun].
      destruct (StatusCode resp =? 404)%Z.
      * injection Hrun as _ <-. right. reflexivity.
      * injection Hrun as _ <-. left. reflexivity.
    + injection Hrun as _ <-. right. reflexivity.
Qed.

Lemma resourceIdpDelete_calls_witness :
  fieldString facebookConfigInactive "status" <> "ACTIVE" /\
  resourceIdpDelete facebookConfigInactive healthyService [] =
    Ret (None, [DeleteIdentityProvider "0oa2"]) /\
  [DeleteIdentityProvider "0oa2"] =
    ([] ++ [DeleteIdentityProvider (Id facebookConfigInactive)])%list.
Proof.
  split; [discriminate|]. split; [reflexivity|].
  apply (proj1 (resourceIdpDelete_calls facebookConfigInactive healthyService
                  None [] [DeleteIdentityProvider "0oa2"] eq_refl)).
  discriminate.
Defined.

(** ** More on the builders *)

(** X11. The payload depends on nothing but the fifteen fields the builders
    read: two resource data that agree on them give the same payload,
    whatever their resource id, partial flag, status, profile_master or
    signature fields are. *)
Theorem buildSocialIdp_reads_only (d1 d2 : ResourceData) :
  (forall key : string, In key builderKeys -> Get d1 key = Get d2 key) ->
  buildSocialIdp d1 = buildSocialIdp d2.
Proof.
  intros H. rewrite !buildSocialIdp_eq.
  unfold socialIdpPayload, fieldString, fieldInt, fieldSet.
  repeat match goal with
         | |- context [Get d1 ?k] =>
             rewrite (H k)
               by (unfold builderKeys, In; repeat (first [left; reflexivity | right]))
         end.
  reflexivity.
Qed.

Lemma buildSocialIdp_reads_only_witness :
  Get facebookConfig "status" <> Get facebookConfigInactive "status" /\
  Id facebookConfig <> Id facebookConfigInactive /\
  buildSocialIdp facebookConfig = buildSocialIdp facebookConfigInactive.
Proof.
  split; [vm_compute; discriminate|]. split; [discriminate|].
  apply buildSocialIdp_reads_only.
  intros key Hkey. unfold builderKeys, In in Hkey.
  repeat (destruct Hkey as [<-|Hkey]; [vm_compute; reflexivity|]).
  destruct Hkey.
Defined.

Lemma NewSignature_request (d : ResourceData) :
  exists sig : option IDPSignature,
    NewSignature d "request" = Ret sig /\
    (sig = None <-> fieldString d "request_signature_scope" = "").
Proof.
  eexists. split; [apply NewSignature_eq; declared|].
  change (Sprintf_s "request" "_signature_scope") with "request_signature_scope".
  destruct (String.eqb_spec (fieldString d "request_signature_scope") "") as [E|E];
    split; intros; congruence.
Qed.

Lemma NewSignature_response (d : ResourceData) :
  exists sig : option IDPSignature,
    NewSignature d "response" = Ret sig /\
    (sig = None <-> fieldString d "response_signature_scope" = "").
Proof.
  eexists. split; [apply NewSignature_eq; declared|].
  change (Sprintf_s "response" "_signature_scope") with "response_signature_scope".
  destruct (String.eqb_spec (fieldString d "response_signature_scope") "") as [E|E];
    split; intros; congruence.
Qed.

(** X13. [NewAlgorithms] never panics on the resource's data: it returns the
    two signatures [NewSignature] builds for "request" and "response", each
    nil exactly when its own scope field is empty, independently of the
    other. *)
Theorem NewAlgorithms_signatures (d : ResourceData) :
  exists alg : Algorithms,
    NewAlgorithms d = Ret alg /\
    NewSignature d "request" = Ret (Request alg) /\
    NewSignature d "response" = Ret (Response_ alg) /\
    (Request alg = None <-> fieldString d "request_signature_scope" = "") /\
    (Response_ alg = None <-> fieldString d "response_signature_scope" = "").
Proof.
  destruct (NewSignature_request d) as (rq & Hrq & Hq).
  destruct (NewSignature_response d) as (rs & Hrs & Hs).
  exists {| Request := rq; Response_ := rs |}.
  unfold NewAlgorithms. rewrite Hrq, Hrs. cbn.
  repeat split; tauto.
Qed.

Lemma NewAlgorithms_signatures_witness :
  fieldString facebookConfig "request_signature_scope" <> "" /\
  NewAlgorithms facebookConfig =
  Ret {| Request := Some {| Signature_ :=
                              Some {| Algorithm := "SHA-256"; Scope := "REQUEST" |} |};
         Response_ := None |}.
Proof.
  split; [discriminate|].
  destruct (NewAlgorithms_signatures facebookConfig)
    as (alg & Hrun & Hrq & Hrs & _ & _).
  rewrite Hrun. destruct alg as [rq rs]. cbn in Hrq, Hrs.
  vm_compute in Hrq. injection Hrq as <-.
  vm_compute in Hrs. injection Hrs as <-. reflexivity.
Defined.

(** ** Keys the schema does not declare *)

Ltac peel key H :=
  repeat (destruct key as [|? key]; cbn in H;
          [try discriminate H | injection H as -> H]).

Lemma signature_scope_keys (key : string) :
  In (Sprintf_s key "_signature_scope") declaredKeys ->
  key = "request" \/ key = "response".
Proof.
  unfold Sprintf_s, declaredKeys, In. intros H.
  repeat (destruct H as [H|H]; [symmetry in H; revert H|]).
  all: try (exfalso; exact H).
  all: intros H; peel key H;
    first [ destruct key; discriminate H | left; reflexivity | right; reflexivity ].
Qed.

Lemma plainKey_signature_scope : plainKey "_signature_scope".
Proof.
  unfold plainKey. cbn. intros H.
  repeat (destruct H as [H|H]; [discriminate H|]). exact H.
Qed.

(** X12. Among the plain keys (those without a dot) [NewSignature] panics
    exactly on the ones other than "request" and "response": for any other
    the scope field it asks for is not declared by the schema, the resource
    data yields nil for it, and the assertion to a string fails. *)
Theorem NewSignature_panics_iff (d : ResourceData) (key : string) :
  plainKey key ->
  (NewSignature d key = Panic <-> key <> "request" /\ key <> "response").
Proof.
  intros Hplain. split.
  - intros Hp. split; intros ->.
    + destruct (NewSignature_request d) as (sig & Hrun & _). congruence.
    + destruct (NewSignature_response d) as (sig & Hrun & _). congruence.
  - intros [Hrq Hrs]. unfold NewSignature. cbv zeta.
    rewrite Get_undeclared; [reflexivity| |].
    + apply plainKey_append; [exact Hplain|apply plainKey_signature_scope].
    + unfold declaredType.
      destruct (resourceSocialIdpSchema !! Sprintf_s key "_signature_scope")
        as [sch|] eqn:Hl; [|reflexivity].
      apply declaredKeys_complete, signature_scope_keys in Hl.
      destruct Hl; contradiction.
Qed.

Lemma NewSignature_panics_iff_witness :
  plainKey "assertion" /\
  "assertion" <> "request" /\ "assertion" <> "response" /\
  NewSignature facebookConfig "assertion" = Panic.
Proof.
  assert (Hplain : plainKey "assertion").
  { unfold plainKey. cbn. intros H.
    repeat (destruct H as [H|H]; [discriminate H|]). exact H. }
  split; [exact Hplain|]. split; [discriminate|]. split; [discriminate|].
  apply (proj2 (NewSignature_panics_iff facebookConfig "assertion" Hplain)).
  split; discriminate.
Defined.

(** ** Flattening the signature algorithms *)

Lemma resourceSocialIdpSchema_fields :
  resourceSocialIdpSchema = buildIdpSchema socialIdpFields.
Proof. reflexivity. Qed.

(** One [d.Set] of a string under the schema [schema], error dropped: it
    returns with at most that field changed, or panics on a set field. *)
Lemma SetIn_string_step (schema : gmap string Schema) (d : ResourceData)
    (key s : string) :
  match obind (SetIn schema d key (VString s)) (fun r => Ret (fst r)) with
  | Ret d' => sameBut [key] d d'
  | Panic =>
      exists sch : Schema, schema !! key = Some sch /\ SchemaType sch = TypeSet
  end.
Proof.
  destruct (SetIn schema d key (VString s)) as [|[d' ok]] eqn:Hset; cbn.
  - unfold SetIn in Hset. destruct (schema !! key) as [sch|]; [|discriminate].
    exists sch. split; [reflexivity|].
    destruct (SchemaType sch); try discriminate Hset. reflexivity.
  - apply SetIn_sameBut in Hset. exact Hset.
Qed.

(** X14. On a resource whose own fields do not declare request_algorithm,
    request_scope, response_algorithm and response_scope, [syncAlgo] returns
    and changes nothing, whatever algorithms it is given: the base schema
    declares the signature fields under other names
    (request_signature_algorithm and so on), so every one of its writes is
    refused. *)
Theorem syncAlgo_undeclared (idpSchema : gmap string Schema) (d : ResourceData)
    (alg : option Algorithms) :
  (forall key : string, In key syncAlgoKeys -> idpSchema !! key = None) ->
  syncAlgo (buildIdpSchema idpSchema) d alg = Ret d.
Proof.
  intros Hext.
  assert (Hnone : forall key, In key syncAlgoKeys ->
                    buildIdpSchema idpSchema !! key = None).
  { intros key Hkey. unfold buildIdpSchema, buildSchema.
    apply lookup_union_None. split; [apply Hext, Hkey|].
    unfold syncAlgoKeys, In in Hkey.
    repeat (destruct Hkey as [<-|Hkey]; [vm_compute; reflexivity|]).
    destruct Hkey. }
  unfold syncAlgo. cbv zeta.
  destruct alg as [alg|]; [|reflexivity].
  destruct (Request alg) as [[[reqSign|]]|];
    destruct (Response_ alg) as [[[resSign|]]|];
    cbn [Signature_ obind];
    repeat (rewrite SetIn_undeclared
              by (apply Hnone; unfold syncAlgoKeys, In;
                  repeat (first [left; reflexivity | right]));
            cbn [obind fst]);
    reflexivity.
Qed.

Lemma syncAlgo_undeclared_witness :
  Request <$> remoteAlgorithms <> Some None /\
  syncAlgo resourceSocialIdpSchema facebookConfig remoteAlgorithms =
    Ret facebookConfig.
Proof.
  split; [discriminate|].
  rewrite resourceSocialIdpSchema_fields.
  apply syncAlgo_undeclared.
  intros key Hkey. unfold syncAlgoKeys, In in Hkey.
  repeat (destruct Hkey as [<-|Hkey]; [vm_compute; reflexivity|]).
  destruct Hkey.
Defined.

Ltac sync_step :=
  match goal with
  | |- context [obind (SetIn ?sc ?d ?k (VString ?s)) ?f] =>
      let H := fresh "Hstep" in
      pose proof (SetIn_string_step sc d k s) as H;
      destruct (obind (SetIn sc d k (VString s)) f); cbn [obind]
  end.

Ltac sync_panic :=
  match goal with
  | H : exists sch : Schema, ?sc !! ?k = Some sch /\ _ |- _ =>
      destruct H as (sch & Hl & Ht); exists k, sch;
      split; [unfold syncAlgoKeys, In; repeat (first [left; reflexivity | right])|];
      split; assumption
  end.

(** X15. Whatever the schema, [syncAlgo] either returns, and then the
    resource id, the partial flag and every field other than the four it
    names are as they were (so it never stores anything under
    request_signature_algorithm, request_signature_scope,
    response_signature_algorithm or response_signature_scope, the fields
    [NewSignature] reads), or it panics, and then one of the four names is
    declared as a set field. *)
Theorem syncAlgo_frame (schema : gmap string Schema) (d : ResourceData)
    (alg : option Algorithms) (key : string) :
  ~ In key syncAlgoKeys ->
  match syncAlgo schema d alg with
  | Ret d' =>
      rd_fields d' !! key = rd_fields d !! key /\
      rd_id d' = rd_id d /\
      rd_partial d' = rd_partial d
  | Panic =>
      exists (k : string) (sch : Schema),
        In k syncAlgoKeys /\ schema !! k = Some sch /\ SchemaType sch = TypeSet
  end.
Proof.
  intros Hnin.
  assert (Hdone : forall d' : ResourceData,
            sameBut syncAlgoKeys d d' ->
            rd_fields d' !! key = rd_fields d !! key /\
            rd_id d' = rd_id d /\ rd_partial d' = rd_partial d).
  { intros d' (Hid & Hp & _ & Hf). repeat split; auto. }
  assert (Hin : forall k keys, In k syncAlgoKeys -> incl keys syncAlgoKeys ->
                  incl ([k] ++ keys) syncAlgoKeys).
  { intros k keys Hk Hks x [<-|Hx]; [exact Hk|apply Hks, Hx]. }
  unfold syncAlgo. cbv zeta.
  destruct alg as [alg|]; [|apply Hdone, sameBut_refl].
  destruct (Request alg) as [[[reqSign|]]|];
    destruct (Response_ alg) as [[[resSign|]]|];
    cbn [Signature_ obind];
    repeat (sync_step; [sync_panic|]);
    apply Hdone;
    repeat match goal with
           | Ha : sameBut _ d ?x, Hb : sameBut _ ?x _ |- _ =>
               pose proof (sameBut_trans _ _ _ _ _ Ha Hb); clear Ha Hb
           end;
    first [ apply sameBut_refl
          | eapply sameBut_incl; [|eassumption];
            intros x Hx; unfold syncAlgoKeys; cbn in Hx |- *; tauto ].
Qed.

Lemma syncAlgo_frame_witness :
  ~ In "request_signature_scope" syncAlgoKeys /\
  exists d' : ResourceData,
    syncAlgo (<["request_scope" := optionalString None None]>
                resourceSocialIdpSchema)
      facebookConfig remoteAlgorithms = Ret d' /\
    rd_fields d' !! "request_signature_scope" = Some (VString "REQUEST") /\
    rd_fields d' !! "request_scope" = Some (VString "REQUEST").
Proof.
  assert (Hnin : ~ In "request_signature_scope" syncAlgoKeys).
  { unfold syncAlgoKeys, In. intros H.
    repeat (destruct H as [H|H]; [discriminate H|]). exact H. }
  split; [exact Hnin|].
  pose proof (syncAlgo_frame (<["request_scope" := optionalString None None]>
                                resourceSocialIdpSchema)
                facebookConfig remoteAlgorithms "request_signature_scope" Hnin)
    as Hframe.
  destruct (syncAlgo (<["request_scope" := optionalString None None]>
                        resourceSocialIdpSchema)
              facebookConfig remoteAlgorithms) as [|d'] eqn:Hrun;
    [vm_compute in Hrun; discriminate Hrun|].
  exists d'. split; [reflexivity|].
  destruct Hframe as (Hsig & _ & _). split.
  - rewrite Hsig. vm_compute. reflexivity.
  - vm_compute in Hrun. injection Hrun as <-. vm_compute. reflexivity.
Defined.
